(** * Weather dashboard: fetch-then-archive pipeline

    A shallow embedding of [src/weather_dashboard.py].  The program talks to
    four collaborators (the process environment, the weather provider over
    HTTP, the object store, the wall clock) and prints progress lines.  The
    collaborators are gathered in a record of oracles, [World]; every call the
    program makes to one of them is appended to a trace, and each oracle
    answers from the trace of the calls made so far.  Python exceptions are
    explicit results, a display line the output stream cannot encode among
    them, and the one object the program mutates (the parsed response
    document) lives in a heap, so that aliasing between
    [main] and [save_to_s3] is visible.

    The lines the module prints when it is loaded, before [main] is called,
    are not part of the embedding. *)

From Stdlib Require Import Ascii String Floats.SpecFloat.
From stdpp Require Import base option list strings gmap.

Local Open Scope string_scope.
Local Open Scope list_scope.
Set Warnings "-register-all".

(** ** Parsed JSON documents, as [response.json()] builds them *)

Module Json.

(** Python's [dict] keeps insertion order and [json.dumps] writes the keys in
    that order, so an object is an association list. *)
Inductive json : Type :=
| JNull
| JBool (b : bool)
| JInt (z : Z)
| JFloat (f : spec_float)
| JStr (s : string)
| JArr (items : list json)
| JObj (fields : list (string * json)).

(** [bool(x)]: what [if x] and [if not x] test. *)
Definition truthy (v : json) : bool :=
  match v with
  | JNull => false
  | JBool b => b
  | JInt z => negb (Z.eqb z 0)
  | JFloat (S754_zero _) => false
  | JFloat _ => true
  | JStr s => negb (String.eqb s "")
  | JArr items => match items with [] => false | _ => true end
  | JObj fields => match fields with [] => false | _ => true end
  end.

(** [d.get(k)] on the association list: the first binding of [k]. *)
Fixpoint dict_get (k : string) (d : list (string * json)) : option json :=
  match d with
  | [] => None
  | (k', v) :: rest => if String.eqb k k' then Some v else dict_get k rest
  end.

(** [d[k] = x]: an existing key keeps its position and takes the new value,
    a new key goes to the end. *)
Fixpoint dict_set (k : string) (x : json) (d : list (string * json))
  : list (string * json) :=
  match d with
  | [] => [(k, x)]
  | (k', v) :: rest =>
      if String.eqb k k' then (k', x) :: rest else (k', v) :: dict_set k x rest
  end.

End Json.
Export Json.

(** ** Exceptions *)

(** The exception classes the program can meet.  [RequestException] stands for
    the class and its subclasses (connection errors, timeouts, [HTTPError] from
    [raise_for_status]); [UnicodeEncodeError] is what [print] raises for a line
    the output stream cannot encode; [OtherError] stands for anything else a
    collaborator raises that is an [Exception] but not a [RequestException]. *)
Inductive exn : Type :=
| KeyError
| IndexError
| TypeError
| RequestException
| UnicodeEncodeError
| OtherError.

Definition is_RequestException (e : exn) : bool :=
  match e with RequestException => true | _ => false end.

Inductive outcome (A : Type) : Type :=
| Return (a : A)
| Raise (e : exn).
Arguments Return {A} a.
Arguments Raise {A} e.

(** ** Subscripting *)

(** [v[k]] for a string key. *)
Definition getitem_str (v : json) (k : string) : outcome json :=
  match v with
  | JObj fields =>
      match dict_get k fields with
      | Some x => Return x
      | None => Raise KeyError
      end
  | _ => Raise TypeError
  end.

(** [v[i]] for an integer index; a negative index counts from the end. *)
Definition getitem_int (v : json) (i : Z) : outcome json :=
  match v with
  | JArr items =>
      let n := Z.of_nat (length items) in
      let j := if Z.ltb i 0 then Z.add i n else i in
      if Z.ltb j 0 then Raise IndexError
      else match items !! Z.to_nat j with
           | Some x => Return x
           | None => Raise IndexError
           end
  | JStr s =>
      let n := Z.of_nat (String.length s) in
      let j := if Z.ltb i 0 then Z.add i n else i in
      if Z.ltb j 0 then Raise IndexError
      else match String.get (Z.to_nat j) s with
           | Some c => Return (JStr (String c EmptyString))
           | None => Raise IndexError
           end
  | JObj _ => Raise KeyError
  | _ => Raise TypeError
  end.

(** [v[k] = x] for a string key: only a dict accepts it. *)
Definition setitem_str (v : json) (k : string) (x : json) : outcome json :=
  match v with
  | JObj fields => Return (JObj (dict_set k x fields))
  | _ => Raise TypeError
  end.

(** ** The wall clock and [strftime('%Y%m%d-%H%M%S')] *)

Record datetime : Type := {
  year : N; month : N; day : N;
  hour : N; minute : N; second : N
}.

Definition digit (n : N) : ascii := ascii_of_N (48 + n `mod` 10)%N.

(** [%m], [%d], [%H], [%M], [%S]: two digits, zero padded. *)
Definition pad2 (n : N) : string :=
  String (digit (n `div` 10)%N) (String (digit n) EmptyString).

(** [%Y]: the year with century, four digits for the years 1000 to 9999 (a
    [datetime] has no year above 9999). *)
Definition pad4 (n : N) : string :=
  String (digit (n `div` 1000)%N) (String (digit (n `div` 100)%N)
    (String (digit (n `div` 10)%N) (String (digit n) EmptyString))).

Definition strftime (t : datetime) : string :=
  pad4 (year t) +:+ pad2 (month t) +:+ pad2 (day t) +:+ "-" +:+
  pad2 (hour t) +:+ pad2 (minute t) +:+ pad2 (second t).

(** ** Calls to the collaborators *)

(** The lines the program prints.  The interpolated values are kept as
    arguments. *)
Inductive message : Type :=
| MsgBucketNameMissing
| MsgBucketExists (bucket : option string)
| MsgBucketCreating (bucket : option string)
| MsgBucketCreated (bucket : option string) (region : string)
| MsgBucketCreateError
| MsgApiKeyMissing
| MsgFetchError (city : string)
| MsgSavedToS3 (city : string)
| MsgSaveError
| MsgFetching (city : string)
| MsgTemperature (temp : json)
| MsgFeelsLike (feels_like : json)
| MsgHumidity (humidity : json)
| MsgConditions (description : json)
| MsgSaved (city : string)
| MsgFetchFailed (city : string).

Inductive event : Type :=
| EPrint (m : message)
| EHeadBucket (bucket : option string)
| ECreateBucket (bucket : option string) (location_constraint : option string)
| EHttpGet (url : string) (params : list (string * option string))
| EPutObject (bucket : option string) (key body content_type : string).

(** What [requests.get(...)], [raise_for_status()] and [response.json()]
    together come to: an exception, or the parsed document. *)
Inductive http_reply : Type :=
| HttpRaise (e : exn)
| HttpJson (v : json).

(** The collaborators.  Each oracle sees the calls made before it.  For the
    storage calls [true] means the call returns and [false] that it raises an
    [Exception]; [boto3_client region] tells whether the storage client can be
    created for a region name, and [stdout_write] whether the output stream
    can encode a display line (see [display] below).  An argument the program passes straight from an instance
    attribute is an [option string], as [os.getenv] returned it. *)
Record World : Type := {
  boto3_client : string -> bool;
  stdout_write : list event -> message -> bool;
  json_dumps : json -> string;
  datetime_now : list event -> datetime;
  head_bucket : list event -> option string -> bool;
  create_bucket : list event -> option string -> option string -> bool;
  requests_get :
    list event -> string -> list (string * option string) -> http_reply;
  put_object : list event -> option string -> string -> string -> string -> bool
}.

(** ** Program state and the monad of the embedding *)

(** A Python variable holds [None] or a reference to an object. *)
Inductive value : Type :=
| PyNone
| PyRef (l : nat).

Record state : Type := {
  heap : list json;
  trace : list event
}.

Definition initial : state := {| heap := []; trace := [] |}.

Definition M (A : Type) : Type := state -> outcome A * state.

Definition ret {A} (a : A) : M A := fun st => (Return a, st).

Definition raise {A} (e : exn) : M A := fun st => (Raise e, st).

Definition bind {A B} (m : M A) (k : A -> M B) : M B :=
  fun st =>
    match m st with
    | (Return a, st') => k a st'
    | (Raise e, st') => (Raise e, st')
    end.

Notation "x <- m ;; k" := (bind m (fun x => k))
  (at level 90, m at next level, right associativity).
Notation "m ;;; k" := (bind m (fun _ => k))
  (at level 90, right associativity).

(** [try: body except <classes accepted by catches>: handler]. *)
Definition try_except {A} (body : M A) (catches : exn -> bool)
    (handler : exn -> M A) : M A :=
  fun st =>
    match body st with
    | (Return a, st') => (Return a, st')
    | (Raise e, st') => if catches e then handler e st' else (Raise e, st')
    end.

Definition lift {A} (o : outcome A) : M A := fun st => (o, st).

Definition emit (e : event) : M unit :=
  fun st => (Return tt, {| heap := heap st; trace := trace st ++ [e] |}).

Definition print (m : message) : M unit := emit (EPrint m).

Definition get_trace : M (list event) := fun st => (Return (trace st), st).

(** The object a reference points to. *)
Definition heap_get (h : list json) (l : nat) : json := default JNull (h !! l).

(** The object a variable holds. *)
Definition object_of (st : state) (x : value) : json :=
  match x with
  | PyNone => JNull
  | PyRef l => heap_get (heap st) l
  end.

Definition deref (x : value) : M json :=
  fun st => (Return (object_of st x), st).

(** A new object; [None] is the one object that is never allocated. *)
Definition alloc (v : json) : M value :=
  fun st =>
    match v with
    | JNull => (Return PyNone, st)
    | _ => (Return (PyRef (length (heap st))),
            {| heap := heap st ++ [v]; trace := trace st |})
    end.

(** [x[k] = v] on the object [x] refers to, in place. *)
Definition store_item (x : value) (k : string) (v : json) : M unit :=
  fun st =>
    match x with
    | PyNone => (Raise TypeError, st)
    | PyRef l =>
        match setitem_str (heap_get (heap st) l) k v with
        | Return o => (Return tt, {| heap := <[l := o]> (heap st); trace := trace st |})
        | Raise e => (Raise e, st)
        end
    end.

Definition is_truthy (x : value) : M bool :=
  o <- deref x ;; ret (truthy o).

(** ** The program *)

Module WeatherDashboard.

(** The instance attributes; the storage client is the handle the [World]
    oracles stand for, created for [aws_region]. *)
Record t : Type := {
  api_key : option string;
  bucket_name : option string;
  aws_region : string
}.

(** The attributes [__init__] reads: [os.getenv(name)] is [None] for an unset
    variable. *)
Definition attributes (environ : gmap string string) : t :=
  {| api_key := environ !! "OPEN_WEATHER_API_KEY";
     bucket_name := environ !! "AWS_BUCKET_NAME";
     aws_region := default "eu-west-2" (environ !! "AWS_REGION") |}.


(** [bool(s)] for an attribute read from the environment. *)
Definition configured (s : option string) : bool :=
  match s with
  | None => false
  | Some s => negb (String.eqb s "")
  end.

Section Methods.

Variable w : World.
Variable self : t.

Definition call_head_bucket (bucket : option string) : M unit :=
  h <- get_trace ;;
  emit (EHeadBucket bucket) ;;;
  if head_bucket w h bucket then ret tt else raise OtherError.

Definition call_create_bucket (bucket loc : option string) : M unit :=
  h <- get_trace ;;
  emit (ECreateBucket bucket loc) ;;;
  if create_bucket w h bucket loc then ret tt else raise OtherError.

Definition call_requests_get (url : string)
    (params : list (string * option string)) : M json :=
  h <- get_trace ;;
  emit (EHttpGet url params) ;;;
  match requests_get w h url params with
  | HttpRaise e => raise e
  | HttpJson v => ret v
  end.

Definition call_put_object (bucket : option string) (key body ctype : string)
  : M unit :=
  h <- get_trace ;;
  emit (EPutObject bucket key body ctype) ;;;
  if put_object w h bucket key body ctype then ret tt else raise OtherError.

Definition now : M datetime :=
  h <- get_trace ;; ret (datetime_now w h).

Definition create_bucket_if_not_exists : M unit :=
  if negb (configured (bucket_name self)) then
    print MsgBucketNameMissing
  else
    try_except
      (call_head_bucket (bucket_name self) ;;;
       print (MsgBucketExists (bucket_name self)))
      (fun _ => true)
      (fun _ =>
         print (MsgBucketCreating (bucket_name self)) ;;;
         try_except
           ((if negb (String.eqb (aws_region self) "us-east-1") then
               call_create_bucket (bucket_name self) (Some (aws_region self))
             else
               call_create_bucket (bucket_name self) None) ;;;
            print (MsgBucketCreated (bucket_name self) (aws_region self)))
           (fun _ => true)
           (fun _ => print MsgBucketCreateError)).

Definition fetch_weather (city : string) : M value :=
  if negb (configured (api_key self)) then
    print MsgApiKeyMissing ;;; ret PyNone
  else
    let base_url := "http://api.openweathermap.org/data/2.5/weather" in
    let params := [("q", Some city);
                   ("appid", api_key self);
                   ("units", Some "imperial")] in
    try_except
      (doc <- call_requests_get base_url params ;;
       alloc doc)
      is_RequestException
      (fun _ => print (MsgFetchError city) ;;; ret PyNone).

(** The name [save_to_s3] gives the object. *)
Definition file_name (city timestamp : string) : string :=
  "weather-data/" +:+ city +:+ "-" +:+ timestamp +:+ ".json".

Definition save_to_s3 (weather_data : value) (city : string) : M bool :=
  b <- is_truthy weather_data ;;
  if negb b then ret false
  else
    t <- now ;;
    let timestamp := strftime t in
    let file_name := file_name city timestamp in
    try_except
      (store_item weather_data "timestamp" (JStr timestamp) ;;;
       doc <- deref weather_data ;;
       call_put_object (bucket_name self) file_name (json_dumps w doc)
         "application/json" ;;;
       print (MsgSavedToS3 city) ;;;
       ret true)
      (fun _ => true)
      (fun _ => print MsgSaveError ;;; ret false).

End Methods.

End WeatherDashboard.

Import WeatherDashboard.

Definition cities : list string := ["Philadelphia"; "Seattle"; "New York"].

Section Main.

Variable w : World.
Variable dashboard : WeatherDashboard.t.

(** [weather_data[k1][k2]]. *)
Definition field2 (weather_data : value) (k1 k2 : string) : M json :=
  o <- deref weather_data ;;
  m <- lift (getitem_str o k1) ;;
  lift (getitem_str m k2).

(** [print] of a display line.  The lines the program prints elsewhere are
    made of its own text, its configuration and the names of the cities, which
    the output stream is taken to encode; a display line carries the degree
    sign or a value read from the provider's reply, and [print] raises
    [UnicodeEncodeError], writing nothing, when the stream cannot encode it. *)
Definition display (m : message) : M unit :=
  h <- get_trace ;;
  if stdout_write w h m then emit (EPrint m) else raise UnicodeEncodeError.

(** The body of the [for city in cities] loop. *)
Definition visit (city : string) : M unit :=
  print (MsgFetching city) ;;;
  weather_data <- fetch_weather w dashboard city ;;
  b <- is_truthy weather_data ;;
  if b then
    temp <- field2 weather_data "main" "temp" ;;
    feels_like <- field2 weather_data "main" "feels_like" ;;
    humidity <- field2 weather_data "main" "humidity" ;;
    description <-
      (o <- deref weather_data ;;
       ws <- lift (getitem_str o "weather") ;;
       first <- lift (getitem_int ws 0) ;;
       lift (getitem_str first "description")) ;;
    display (MsgTemperature temp) ;;;
    display (MsgFeelsLike feels_like) ;;;
    display (MsgHumidity humidity) ;;;
    display (MsgConditions description) ;;;
    success <- save_to_s3 w dashboard weather_data city ;;
    if success then print (MsgSaved city) else ret tt
  else
    print (MsgFetchFailed city).

Fixpoint for_each (cs : list string) : M unit :=
  match cs with
  | [] => ret tt
  | city :: rest => visit city ;;; for_each rest
  end.

(** The part of [main] after the dashboard is built, over a list of cities. *)
Definition run (cs : list string) : M unit :=
  create_bucket_if_not_exists w dashboard ;;;
  for_each cs.

End Main.


(** ** Observations on a run *)

(** The storage puts of a trace, as (key, body). *)
Definition as_put (e : event) : option (string * string) :=
  match e with
  | EPutObject _ key body _ => Some (key, body)
  | _ => None
  end.

Definition put_calls (tr : list event) : list (string * string) := omap as_put tr.

(** The existence probes of a trace. *)
Definition as_head (e : event) : option (option string) :=
  match e with
  | EHeadBucket bucket => Some bucket
  | _ => None
  end.

Definition head_calls (tr : list event) : list (option string) := omap as_head tr.

(** The creation requests of a trace, as (bucket, location constraint). *)
Definition as_create (e : event) : option (option string * option string) :=
  match e with
  | ECreateBucket bucket loc => Some (bucket, loc)
  | _ => None
  end.

Definition create_calls (tr : list event) : list (option string * option string) :=
  omap as_create tr.

(** The requests sent to the weather provider. *)
Definition as_http (e : event) : option (string * list (string * option string)) :=
  match e with
  | EHttpGet url params => Some (url, params)
  | _ => None
  end.

Definition http_calls (tr : list event)
  : list (string * list (string * option string)) := omap as_http tr.

(** The cities the loop reached, in order: each iteration announces its city
    before it calls [fetch_weather]. *)
Definition as_attempt (e : event) : option string :=
  match e with
  | EPrint (MsgFetching city) => Some city
  | _ => None
  end.

Definition attempted (tr : list event) : list string := omap as_attempt tr.

(** The state after a line is printed. *)
Definition say (m : message) (st : state) : state :=
  {| heap := heap st; trace := trace st ++ [EPrint m] |}.

(** The request [fetch_weather] sends for a city. *)
Definition weather_url : string := "http://api.openweathermap.org/data/2.5/weather".

Definition weather_params (d : WeatherDashboard.t) (city : string)
  : list (string * option string) :=
  [("q", Some city); ("appid", api_key d); ("units", Some "imperial")].

(** The display lines of an iteration, printed one after the other; the first
    one the stream refuses ends the sequence. *)
Fixpoint display_all (w : World) (ms : list message) : M unit :=
  match ms with
  | [] => ret tt
  | m :: rest => display w m ;;; display_all w rest
  end.

(** The four display lines, in the order of the source. *)
Definition display_lines (fields : json * json * json * json) : list message :=
  let '(temp, feels_like, humidity, description) := fields in
  [MsgTemperature temp; MsgFeelsLike feels_like; MsgHumidity humidity;
   MsgConditions description].

(** The state in which the loop body calls [fetch_weather]. *)
Definition at_fetch (city : string) (st : state) : state :=
  snd (print (MsgFetching city) st).

(** An event of the loop, as opposed to one of provisioning. *)
Definition loop_event (e : event) : bool :=
  match e with
  | EHeadBucket _ | ECreateBucket _ _ => false
  | _ => true
  end.

(** [emits P m]: whatever its outcome, [m] keeps the calls made so far and
    adds only events accepted by [P]. *)
Definition emits {A} (P : event -> bool) (m : M A) : Prop :=
  forall st, exists tr : list event,
    trace (snd (m st)) = trace st ++ tr /\ Forall (fun e => P e = true) tr.

(** An event of [fetch_weather]. *)
Definition fetch_event (e : event) : bool :=
  match e with
  | EPrint MsgApiKeyMissing | EPrint (MsgFetchError _) | EHttpGet _ _ => true
  | _ => false
  end.

(** An event of [save_to_s3]. *)
Definition save_event (e : event) : bool :=
  match e with
  | EPrint (MsgSavedToS3 _) | EPrint MsgSaveError | EPutObject _ _ _ _ => true
  | _ => false
  end.

(** An event of [create_bucket_if_not_exists]. *)
Definition provisioning_event (e : event) : bool :=
  match e with
  | EPrint MsgBucketNameMissing | EPrint (MsgBucketExists _)
  | EPrint (MsgBucketCreating _) | EPrint (MsgBucketCreated _ _)
  | EPrint MsgBucketCreateError | EHeadBucket _ | ECreateBucket _ _ => true
  | _ => false
  end.

(** The document [save_to_s3] serialises for the object [o] at the stamp [ts],
    if it gets as far as serialising one. *)
Definition archived_document (o : json) (ts : string) : option json :=
  match o with
  | JObj (f :: fields) => Some (JObj (dict_set "timestamp" (JStr ts) (f :: fields)))
  | _ => None
  end.

(** ** The specification's side *)

(** The location constraint the storage backend wants for a region: none for
    its default region, the region itself for any other. *)
Definition location_constraint_for (region : string) : option string :=
  if decide (region = "us-east-1") then None else Some region.

(** The four fields the loop displays:
    [main.temp], [main.feels_like], [main.humidity], [weather[0].description]. *)
Definition display_fields (o : json) : outcome (json * json * json * json) :=
  match getitem_str o "main" with
  | Raise e => Raise e
  | Return m =>
      match getitem_str m "temp", getitem_str m "feels_like",
            getitem_str m "humidity" with
      | Return temp, Return feels_like, Return humidity =>
          match getitem_str o "weather" with
          | Raise e => Raise e
          | Return ws =>
              match getitem_int ws 0 with
              | Raise e => Raise e
              | Return first =>
                  match getitem_str first "description" with
                  | Raise e => Raise e
                  | Return description =>
                      Return (temp, feels_like, humidity, description)
                  end
              end
          end
      | Raise e, _, _ => Raise e
      | _, Raise e, _ => Raise e
      | _, _, Raise e => Raise e
      end
  end.



(** A capture time as [datetime.now()] can return it (years of four digits). *)
Definition valid_datetime (t : datetime) : bool :=
  (N.leb 1000 (year t) && N.leb (year t) 9999 &&
   N.leb 1 (month t) && N.leb (month t) 12 &&
   N.leb 1 (day t) && N.leb (day t) 31 &&
   N.leb (hour t) 23 && N.leb (minute t) 59 && N.leb (second t) 59)%N.

(** Reading a [YYYYMMDD-HHMMSS] stamp: fifteen characters, decimal digits
    around a hyphen in ninth place. *)
Definition digit_value (c : ascii) : option N :=
  let n := N_of_ascii c in
  if (N.leb 48 n && N.leb n 57)%N then Some (n - 48)%N else None.

Fixpoint read_decimal (acc : N) (cs : list ascii) : option N :=
  match cs with
  | [] => Some acc
  | c :: rest =>
      match digit_value c with
      | Some d => read_decimal (10 * acc + d)%N rest
      | None => None
      end
  end.

Definition read_timestamp (s : string) : option datetime :=
  match list_ascii_of_string s with
  | [y1; y2; y3; y4; m1; m2; d1; d2; dash; h1; h2; n1; n2; s1; s2] =>
      if Ascii.eqb dash "-" then
        match read_decimal 0%N [y1; y2; y3; y4], read_decimal 0%N [m1; m2],
              read_decimal 0%N [d1; d2], read_decimal 0%N [h1; h2],
              read_decimal 0%N [n1; n2], read_decimal 0%N [s1; s2] with
        | Some y, Some m, Some d, Some h, Some n, Some s =>
            Some {| year := y; month := m; day := d;
                    hour := h; minute := n; second := s |}
        | _, _, _, _, _, _ => None
        end
      else None
  | _ => None
  end.

(** The round trip as the specification states it, for one call of
    [save_to_s3] and a reader [loads]: if the call archives the payload, the
    document read back from the stored body holds the stamp of the key under
    [timestamp] and every field of the payload as it was before the call. *)
Definition round_trip_keeps_every_field (w : World) (d : WeatherDashboard.t)
    (weather_data : value) (city : string) (st : state)
    (loads : string -> option json) : Prop :=
  forall st',
    save_to_s3 w d weather_data city st = (Return true, st') ->
    exists ts body doc,
      put_calls (trace st') = put_calls (trace st) ++ [(file_name city ts, body)] /\
      loads body = Some doc /\
      getitem_str doc "timestamp" = Return (JStr ts) /\
      forall k v,
        getitem_str (object_of st weather_data) k = Return v ->
        getitem_str doc k = Return v.



(** A display line, as opposed to the other lines and calls of the loop. *)
Definition display_event (e : event) : bool :=
  match e with
  | EPrint (MsgTemperature _) | EPrint (MsgFeelsLike _)
  | EPrint (MsgHumidity _) | EPrint (MsgConditions _) => true
  | _ => false
  end.


(** ** A sample world *)

(** A stand-in for [json.dumps] and [json.loads]: documents are written as the
    bits of stdpp's numbering of trees.  The only property used of it is that
    reading inverts writing. *)
Module SampleCodec.

Definition leaf : Type := (Z + string)%type.

Definition bool_tree (b : bool) : gen_tree leaf :=
  GenLeaf (inl (if b then 1%Z else 0%Z)).

Definition float_tree (f : spec_float) : gen_tree leaf :=
  match f with
  | S754_zero s => GenNode 0 [bool_tree s]
  | S754_infinity s => GenNode 1 [bool_tree s]
  | S754_nan => GenNode 2 []
  | S754_finite s m e =>
      GenNode 3 [bool_tree s; GenLeaf (inl (Zpos m)); GenLeaf (inl e)]
  end.

Fixpoint to_tree (v : json) : gen_tree leaf :=
  match v with
  | JNull => GenNode 0 []
  | JBool b => GenNode 1 [bool_tree b]
  | JInt z => GenNode 2 [GenLeaf (inl z)]
  | JFloat f => GenNode 3 [float_tree f]
  | JStr s => GenNode 4 [GenLeaf (inr s)]
  | JArr items => GenNode 5 (map to_tree items)
  | JObj fields =>
      GenNode 6 (map (fun kv =>
                        GenNode 7 [GenLeaf (inr (fst kv)); to_tree (snd kv)])
                     fields)
  end.

Definition bool_of (t : gen_tree leaf) : bool :=
  match t with
  | GenLeaf (inl z) => Z.eqb z 1
  | _ => false
  end.

Definition float_of (t : gen_tree leaf) : spec_float :=
  match t with
  | GenNode 0 [s] => S754_zero (bool_of s)
  | GenNode 1 [s] => S754_infinity (bool_of s)
  | GenNode 3 [s; GenLeaf (inl m); GenLeaf (inl e)] =>
      S754_finite (bool_of s) (Z.to_pos m) e
  | _ => S754_nan
  end.

Fixpoint of_tree (t : gen_tree leaf) : json :=
  match t with
  | GenNode 1 [b] => JBool (bool_of b)
  | GenNode 2 [GenLeaf (inl z)] => JInt z
  | GenNode 3 [f] => JFloat (float_of f)
  | GenNode 4 [GenLeaf (inr s)] => JStr s
  | GenNode 5 ts => JArr (map of_tree ts)
  | GenNode 6 ts =>
      JObj (map (fun t =>
                   match t with
                   | GenNode 7 [GenLeaf (inr k); t'] => (k, of_tree t')
                   | _ => (EmptyString, JNull)
                   end) ts)
  | _ => JNull
  end.

Fixpoint bits (p : positive) : string :=
  match p with
  | xH => EmptyString
  | xO p => String "0" (bits p)
  | xI p => String "1" (bits p)
  end.

Fixpoint unbits (s : string) : positive :=
  match s with
  | EmptyString => xH
  | String c s => if Ascii.eqb c "1" then xI (unbits s) else xO (unbits s)
  end.

Definition dumps (v : json) : string := bits (encode (to_tree v)).

Definition loads (s : string) : option json := of_tree <$> decode (unbits s).

End SampleCodec.

Module Sample.

(** 2024-03-01 09:05:07. *)
Definition capture_time : datetime :=
  {| year := 2024; month := 3; day := 1; hour := 9; minute := 5; second := 7 |}.

(** The doubles 72.5 = 145 * 2^-1 and 70.125 = 561 * 2^-3. *)
Definition clear_sky : json :=
  JObj [("main", JObj [("temp", JFloat (S754_finite false 145 (-1)));
                       ("feels_like", JFloat (S754_finite false 561 (-3)));
                       ("humidity", JInt 40)]);
        ("weather", JArr [JObj [("description", JStr "clear sky")]])].

(** A document with no [main] field. *)
Definition no_main : json :=
  JObj [("cod", JInt 200); ("name", JStr "Philadelphia")].

(** A document that already has a [timestamp] field. *)
Definition stamped : json :=
  JObj [("timestamp", JInt 1709283907);
        ("main", JObj [("temp", JInt 72)])].

Definition environ : gmap string string :=
  <["OPEN_WEATHER_API_KEY" := "secret"]> (<["AWS_BUCKET_NAME" := "archive"]> ∅).

Definition environ_without_key : gmap string string :=
  <["AWS_BUCKET_NAME" := "archive"]> ∅.

Definition dashboard : WeatherDashboard.t := WeatherDashboard.attributes environ.

Definition dashboard_without_key : WeatherDashboard.t :=
  WeatherDashboard.attributes environ_without_key.

(** The bucket is not there yet and is created; the provider answers for
    every city but Seattle, whose request fails; the store refuses the object
    of New York. *)
Definition world : World :=
  {| boto3_client := fun _ => true;
     stdout_write := fun _ _ => true;
     json_dumps := SampleCodec.dumps;
     datetime_now := fun _ => capture_time;
     head_bucket := fun _ _ => false;
     create_bucket := fun _ _ _ => true;
     requests_get := fun _ _ params =>
       match params with
       | (_, Some "Seattle") :: _ => HttpRaise RequestException
       | _ => HttpJson clear_sky
       end;
     put_object := fun _ _ key _ _ =>
       negb (String.eqb key "weather-data/New York-20240301-090507.json") |}.

(** The same, but the provider's answer for Philadelphia has no [main]. *)
Definition world_no_main : World :=
  {| boto3_client := fun _ => true;
     stdout_write := fun _ _ => true;
     json_dumps := SampleCodec.dumps;
     datetime_now := fun _ => capture_time;
     head_bucket := fun _ _ => false;
     create_bucket := fun _ _ _ => true;
     requests_get := fun _ _ params =>
       match params with
       | (_, Some "Philadelphia") :: _ => HttpJson no_main
       | _ => HttpJson clear_sky
       end;
     put_object := fun _ _ _ _ _ => true |}.


End Sample.

(** ** Further observations and scenarios *)

(** The storage puts of a trace with what they ask for: bucket, key and
    declared content type. *)
Definition as_put_request (e : event) : option (option string * string * string) :=
  match e with
  | EPutObject bucket key _ content_type => Some (bucket, key, content_type)
  | _ => None
  end.

Definition put_requests (tr : list event)
  : list (option string * string * string) := omap as_put_request tr.

(** The request [fetch_weather] sends for a city, as [http_calls] shows it. *)
Definition weather_request (d : WeatherDashboard.t) (city : string)
  : string * list (string * option string) :=
  (weather_url, weather_params d city).

(** The put [save_to_s3] asks for, for a city and a stamp. *)
Definition archive_request (d : WeatherDashboard.t) (city_stamp : string * string)
  : option string * string * string :=
  (bucket_name d, file_name (fst city_stamp) (snd city_stamp), "application/json").

Module Scenario.

(** No bucket name in the environment. *)
Definition dashboard_without_bucket : WeatherDashboard.t :=
  WeatherDashboard.attributes (<["OPEN_WEATHER_API_KEY" := "secret"]> ∅).

(** The provider answers 200 with an empty document. *)
Definition world_empty_reply : World :=
  {| boto3_client := fun _ => true;
     stdout_write := fun _ _ => true;
     json_dumps := SampleCodec.dumps;
     datetime_now := fun _ => Sample.capture_time;
     head_bucket := fun _ _ => true;
     create_bucket := fun _ _ _ => true;
     requests_get := fun _ _ _ => HttpJson (JObj []);
     put_object := fun _ _ _ _ _ => true |}.

(** The HTTP layer raises something that is no [RequestException]. *)
Definition world_other_error : World :=
  {| boto3_client := fun _ => true;
     stdout_write := fun _ _ => true;
     json_dumps := SampleCodec.dumps;
     datetime_now := fun _ => Sample.capture_time;
     head_bucket := fun _ _ => true;
     create_bucket := fun _ _ _ => true;
     requests_get := fun _ _ _ => HttpRaise OtherError;
     put_object := fun _ _ _ _ _ => true |}.

(** The provider answers with the full document, but the output stream is
    ASCII only and cannot write the degree sign of the temperature lines. *)
Definition world_ascii_stream : World :=
  {| boto3_client := fun _ => true;
     stdout_write := fun _ m =>
       match m with
       | MsgTemperature _ | MsgFeelsLike _ => false
       | _ => true
       end;
     json_dumps := SampleCodec.dumps;
     datetime_now := fun _ => Sample.capture_time;
     head_bucket := fun _ _ => true;
     create_bucket := fun _ _ _ => true;
     requests_get := fun _ _ _ => HttpJson Sample.clear_sky;
     put_object := fun _ _ _ _ _ => true |}.

(** A payload that is a list. *)
Definition list_payload : json := JArr [JInt 1; JInt 2].

End Scenario.

(** * Properties *)

(** ** Traces only grow *)

Section Emits.

Context {A B : Type} (P : event -> bool).

Lemma emits_ret (a : A) : emits P (ret a).
Proof. intros st. exists []. simpl. by rewrite app_nil_r. Qed.

Lemma emits_raise (e : exn) : emits P (@raise A e).
Proof. intros st. exists []. simpl. by rewrite app_nil_r. Qed.

Lemma emits_lift (o : outcome A) : emits P (lift o).
Proof. intros st. exists []. simpl. by rewrite app_nil_r. Qed.

Lemma emits_emit (e : event) : P e = true -> emits P (emit e).
Proof. intros He st. exists [e]. simpl. auto. Qed.

Lemma emits_bind (m : M A) (k : A -> M B) :
  emits P m -> (forall a, emits P (k a)) -> emits P (bind m k).
Proof.
  intros Hm Hk st. unfold bind.
  destruct (Hm st) as (tr1 & E1 & F1).
  destruct (m st) as [[a|e] st1]; simpl in E1.
  - destruct (Hk a st1) as (tr2 & E2 & F2).
    exists (tr1 ++ tr2). rewrite E2, E1, app_assoc.
    split; [done | by apply Forall_app].
  - exists tr1. auto.
Qed.

Lemma emits_try_except (body : M A) (catches : exn -> bool) (handler : exn -> M A) :
  emits P body -> (forall e, emits P (handler e)) ->
  emits P (try_except body catches handler).
Proof.
  intros Hb Hh st. unfold try_except.
  destruct (Hb st) as (tr1 & E1 & F1).
  destruct (body st) as [[a|e] st1]; simpl in E1.
  - exists tr1. auto.
  - destruct (catches e).
    + destruct (Hh e st1) as (tr2 & E2 & F2).
      exists (tr1 ++ tr2). rewrite E2, E1, app_assoc.
      split; [done | by apply Forall_app].
    + exists tr1. auto.
Qed.

End Emits.

Lemma emits_get_trace P : emits P get_trace.
Proof. intros st. exists []. simpl. by rewrite app_nil_r. Qed.

Lemma emits_deref P x : emits P (deref x).
Proof. intros st. exists []. simpl. by rewrite app_nil_r. Qed.

Lemma emits_alloc P v : emits P (alloc v).
Proof. intros st. exists []. destruct v; simpl; by rewrite app_nil_r. Qed.

Lemma emits_store_item P x k v : emits P (store_item x k v).
Proof.
  intros st. exists []. unfold store_item.
  destruct x as [|l]; simpl; [by rewrite app_nil_r|].
  destruct (setitem_str _ _ _); simpl; by rewrite app_nil_r.
Qed.

Lemma emits_weaken {A} (P Q : event -> bool) (m : M A) :
  (forall e, P e = true -> Q e = true) -> emits P m -> emits Q m.
Proof.
  intros HPQ Hm st. destruct (Hm st) as (tr & E & F).
  exists tr. split; [done|]. eapply Forall_impl; eauto.
Qed.

(** Breaks a program of the embedding down to the events it emits. *)
Ltac emits_step :=
  first
    [ apply emits_ret | apply emits_raise | apply emits_lift
    | apply emits_get_trace | apply emits_deref | apply emits_alloc
    | apply emits_store_item
    | apply emits_emit; reflexivity
    | apply emits_bind; [| intros ?]
    | apply emits_try_except; [| intros ?]
    | match goal with
      | |- emits _ (if ?b then _ else _) => destruct b
      | |- emits _ (match ?x with _ => _ end) => destruct x
      end ].

Ltac emits_auto := repeat emits_step.

(** Events rejected by a projection do not show in it. *)
Lemma omap_app_silent {X} (f : event -> option X) (tr tr' : list event) :
  Forall (fun e => f e = None) tr' -> omap f (tr ++ tr') = omap f tr.
Proof.
  intros H. rewrite omap_app.
  assert (omap f tr' = []) as ->; [| by rewrite app_nil_r].
  induction H as [|e l He _ IH]; simpl; [done|]. by rewrite He.
Qed.

(** ** The methods, one by one *)

Arguments dict_set : simpl never.
Arguments strftime : simpl never.
Arguments file_name : simpl never.
Arguments heap_get : simpl never.

Lemma heap_get_lookup (h : list json) l o : h !! l = Some o -> heap_get h l = o.
Proof. unfold heap_get. by intros ->. Qed.

Lemma heap_get_insert (h : list json) l o :
  l < length h -> heap_get (<[l := o]> h) l = o.
Proof. intros H. unfold heap_get. by rewrite list_lookup_insert_eq. Qed.

Lemma heap_get_alloc (h : list json) o : heap_get (h ++ [o]) (length h) = o.
Proof. unfold heap_get. by rewrite list_lookup_middle. Qed.

(** Opens the calls of a method, then the monad underneath. *)
Ltac open_calls :=
  unfold call_head_bucket, call_create_bucket, call_requests_get,
    call_put_object, now, is_truthy, print.

Ltac open_monad :=
  unfold try_except, bind, lift, emit, get_trace, deref, ret, raise.

(** Reads the calls off a trace that ends in known events. *)
Ltac read_calls :=
  unfold attempted, http_calls, put_requests, put_calls, say, at_fetch in *;
  simpl in *; rewrite ?omap_app; simpl; rewrite ?app_nil_r.

Section MethodFacts.

Variable w : World.
Variable d : WeatherDashboard.t.

Lemma fetch_weather_emits city : emits fetch_event (fetch_weather w d city).
Proof.
  unfold fetch_weather, call_requests_get, print. cbv zeta. emits_auto.
Qed.

Lemma save_to_s3_emits x city : emits save_event (save_to_s3 w d x city).
Proof.
  unfold save_to_s3, call_put_object, now, is_truthy, print. cbv zeta.
  emits_auto.
Qed.

Lemma create_bucket_if_not_exists_emits :
  emits provisioning_event (create_bucket_if_not_exists w d).
Proof.
  unfold create_bucket_if_not_exists, call_head_bucket, call_create_bucket,
    print.
  emits_auto.
Qed.

(** Provisioning swallows every failure. *)
Lemma create_bucket_if_not_exists_returns st :
  fst (create_bucket_if_not_exists w d st) = Return tt.
Proof.
  unfold create_bucket_if_not_exists. open_calls. open_monad.
  destruct (negb (configured (bucket_name d))); simpl; [done|].
  destruct (head_bucket w _ _); simpl; [done|].
  destruct (negb (String.eqb (aws_region d) "us-east-1")); simpl;
    destruct (create_bucket w _ _ _); reflexivity.
Qed.

(** Without a key the fetch prints its complaint and returns [None]. *)
Lemma fetch_weather_unconfigured city st :
  configured (api_key d) = false ->
  fetch_weather w d city st =
    (Return PyNone,
     {| heap := heap st; trace := trace st ++ [EPrint MsgApiKeyMissing] |}).
Proof. intros H. unfold fetch_weather. rewrite H. reflexivity. Qed.

(** With a key, the fetch sends one request and follows the reply. *)
Lemma fetch_weather_configured city st :
  configured (api_key d) = true ->
  let sent := trace st ++ [EHttpGet weather_url (weather_params d city)] in
  fetch_weather w d city st =
    match requests_get w (trace st) weather_url (weather_params d city) with
    | HttpRaise e =>
        if is_RequestException e then
          (Return PyNone,
           {| heap := heap st; trace := sent ++ [EPrint (MsgFetchError city)] |})
        else (Raise e, {| heap := heap st; trace := sent |})
    | HttpJson JNull => (Return PyNone, {| heap := heap st; trace := sent |})
    | HttpJson v =>
        (Return (PyRef (length (heap st))),
         {| heap := heap st ++ [v]; trace := sent |})
    end.
Proof.
  intros H. unfold fetch_weather. rewrite H. cbv zeta.
  open_calls. open_monad. simpl.
  destruct (requests_get w _ _ _) as [e|v]; simpl.
  - destruct (is_RequestException e); reflexivity.
  - destruct v; reflexivity.
Qed.

(** A falsy payload: nothing happens. *)
Lemma save_to_s3_falsy x city st :
  truthy (object_of st x) = false ->
  save_to_s3 w d x city st = (Return false, st).
Proof.
  intros H. unfold save_to_s3. open_calls. open_monad. simpl.
  rewrite H. reflexivity.
Qed.

(** A truthy payload that is a dict: stamped in place, then put. *)
Lemma save_to_s3_dict l f fields city st :
  heap st !! l = Some (JObj (f :: fields)) ->
  let ts := strftime (datetime_now w (trace st)) in
  let doc := JObj (dict_set "timestamp" (JStr ts) (f :: fields)) in
  let key := file_name city ts in
  let body := json_dumps w doc in
  let put := EPutObject (bucket_name d) key body "application/json" in
  save_to_s3 w d (PyRef l) city st =
    if put_object w (trace st) (bucket_name d) key body "application/json" then
      (Return true,
       {| heap := <[l := doc]> (heap st);
          trace := trace st ++ [put; EPrint (MsgSavedToS3 city)] |})
    else
      (Return false,
       {| heap := <[l := doc]> (heap st);
          trace := trace st ++ [put; EPrint MsgSaveError] |}).
Proof.
  intros Hl. cbv zeta.
  assert (l < length (heap st)) as Hlt by (eapply lookup_lt_Some; eauto).
  apply heap_get_lookup in Hl.
  unfold save_to_s3, store_item. open_calls. open_monad.
  simpl. rewrite Hl. simpl. rewrite Hl. simpl.
  rewrite heap_get_insert by done.
  destruct (put_object w _ _ _ _ _); simpl; rewrite <- app_assoc; reflexivity.
Qed.

(** A truthy payload that is no dict: the assignment fails, nothing is put. *)
Lemma save_to_s3_not_dict x city st :
  truthy (object_of st x) = true ->
  archived_document (object_of st x) (strftime (datetime_now w (trace st))) = None ->
  save_to_s3 w d x city st =
    (Return false,
     {| heap := heap st; trace := trace st ++ [EPrint MsgSaveError] |}).
Proof.
  intros Ht Hd.
  unfold save_to_s3, store_item. open_calls. open_monad.
  simpl. rewrite Ht. simpl.
  destruct x as [|l]; simpl in *; [done|].
  destruct (heap_get (heap st) l) as [ | | | | | |[|f fields]]; simpl in *;
    try done.
Qed.



(** The display lines, however far they get. *)
Lemma display_all_emits fields :
  emits display_event (display_all w (display_lines fields)).
Proof.
  destruct fields as [[[temp feels_like] humidity] description]. simpl.
  unfold display. emits_auto.
Qed.

Lemma display_all_heap ms st : heap (snd (display_all w ms st)) = heap st.
Proof.
  revert st. induction ms as [|m rest IH]; intros st; simpl; [done|].
  unfold bind, display, bind, get_trace, emit, raise.
  destruct (stdout_write w _ _); simpl; [|done]. by rewrite IH.
Qed.


End MethodFacts.

(** ** The loop *)

Section LoopFacts.

Variable w : World.
Variable d : WeatherDashboard.t.

(** One iteration, by the result of its fetch. *)
Lemma visit_unfold city st :
  visit w d city st =
    match fetch_weather w d city (at_fetch city st) with
    | (Raise e, st1) => (Raise e, st1)
    | (Return x, st1) =>
        if truthy (object_of st1 x) then
          match display_fields (object_of st1 x) with
          | Raise e => (Raise e, st1)
          | Return fields =>
              match display_all w (display_lines fields) st1 with
              | (Raise e, st2) => (Raise e, st2)
              | (Return _, st2) =>
                  match save_to_s3 w d x city st2 with
                  | (Return true, st3) => (Return tt, say (MsgSaved city) st3)
                  | (Return false, st3) => (Return tt, st3)
                  | (Raise e, st3) => (Raise e, st3)
                  end
              end
          end
        else (Return tt, say (MsgFetchFailed city) st1)
    end.
Proof.
  unfold visit, at_fetch. unfold bind at 1. simpl.
  unfold bind at 1.
  destruct (fetch_weather w d city _) as [[x|e] st1]; [|reflexivity].
  unfold bind at 1. unfold is_truthy at 1, bind at 1, deref at 1, ret at 1.
  destruct (truthy (object_of st1 x)); [|reflexivity].
  unfold field2, display_fields. open_monad.
  destruct (getitem_str (object_of st1 x) "main") as [m|e] eqn:Hm; simpl;
    repeat (rewrite Hm; simpl); [|reflexivity].
  destruct (getitem_str m "temp") as [temp|e]; simpl; [|reflexivity].
  destruct (getitem_str m "feels_like") as [feels_like|e]; simpl; [|reflexivity].
  destruct (getitem_str m "humidity") as [humidity|e]; simpl; [|reflexivity].
  destruct (getitem_str (object_of st1 x) "weather") as [ws|e]; simpl;
    [|reflexivity].
  destruct (getitem_int ws 0) as [first|e]; simpl; [|reflexivity].
  destruct (getitem_str first "description") as [description|e]; simpl;
    [|reflexivity].
  unfold bind, ret.
  destruct (display w (MsgTemperature temp) st1) as [[[]|e] s1]; [|reflexivity].
  destruct (display w (MsgFeelsLike feels_like) s1) as [[[]|e] s2]; [|reflexivity].
  destruct (display w (MsgHumidity humidity) s2) as [[[]|e] s3]; [|reflexivity].
  destruct (display w (MsgConditions description) s3) as [[[]|e] s4];
    [|reflexivity].
  unfold print, emit, say.
  destruct (save_to_s3 w d x city s4) as [[[|]|e] st3]; reflexivity.
Qed.

Lemma visit_emits city : emits loop_event (visit w d city).
Proof.
  unfold visit, field2, is_truthy, print. emits_auto.
  eapply emits_weaken; [|apply fetch_weather_emits]. by intros [[]| | | |].
Qed.

Lemma for_each_emits cs : emits loop_event (for_each w d cs).
Proof.
  induction cs as [|city rest IH]; simpl.
  - apply emits_ret.
  - apply emits_bind; [apply visit_emits | intros _; exact IH].
Qed.

(** The loop over a list extended by one city. *)
Lemma for_each_snoc cs city st :
  for_each w d (cs ++ [city]) st =
    match for_each w d cs st with
    | (Return _, st') => visit w d city st'
    | (Raise e, st') => (Raise e, st')
    end.
Proof.
  revert st. induction cs as [|c rest IH]; intros st; simpl.
  - unfold bind, ret. by destruct (visit w d city st) as [[[]|e] st'].
  - unfold bind.
    destruct (visit w d c st) as [[[]|e] st1]; [apply IH | reflexivity].
Qed.

Lemma run_snoc cs city st :
  run w d (cs ++ [city]) st =
    match run w d cs st with
    | (Return _, st') => visit w d city st'
    | (Raise e, st') => (Raise e, st')
    end.
Proof.
  unfold run, bind.
  destruct (create_bucket_if_not_exists w d st) as [[[]|e] st0];
    [apply for_each_snoc | reflexivity].
Qed.

End LoopFacts.

(** * The claims *)

(** C6.  If the configured API key is absent or empty, then for every city
    [fetch_weather] returns the failure signal [None] and sends nothing: the
    one event it adds to the trace is the printed complaint, so the requests
    sent to the provider are those sent before, and the heap is untouched. *)
Theorem fetch_without_api_key (w : World) (d : WeatherDashboard.t)
    (city : string) (st : state) :
  api_key d = None \/ api_key d = Some "" ->
  fst (fetch_weather w d city st) = Return PyNone /\
  trace (snd (fetch_weather w d city st)) = trace st ++ [EPrint MsgApiKeyMissing] /\
  http_calls (trace (snd (fetch_weather w d city st))) = http_calls (trace st) /\
  heap (snd (fetch_weather w d city st)) = heap st.
Proof.
  intros Hkey.
  rewrite fetch_weather_unconfigured by (destruct Hkey as [-> | ->]; reflexivity).
  simpl. repeat split.
  apply omap_app_silent. by repeat constructor.
Qed.

Lemma fetch_without_api_key_witness :
  (api_key Sample.dashboard_without_key = None \/
   api_key Sample.dashboard_without_key = Some "") /\
  fst (fetch_weather Sample.world Sample.dashboard_without_key
         "Seattle" initial) = Return PyNone.
Proof.
  split; [left; reflexivity|].
  apply (fetch_without_api_key Sample.world
           Sample.dashboard_without_key "Seattle" initial).
  left; reflexivity.
Defined.

(** C7.  If the payload handed to [save_to_s3] is [None] or empty (falsy),
    the call returns [False] at once and the state after it is the state before
    it: no storage call, no other event, and no object of the heap changed, the
    payload included. *)
Theorem save_of_empty_payload (w : World) (d : WeatherDashboard.t)
    (weather_data : value) (city : string) (st : state) :
  truthy (object_of st weather_data) = false ->
  save_to_s3 w d weather_data city st = (Return false, st).
Proof. apply save_to_s3_falsy. Qed.

Lemma save_of_empty_payload_witness :
  truthy (object_of {| heap := [JObj []]; trace := [] |} (PyRef 0)) = false /\
  save_to_s3 Sample.world Sample.dashboard (PyRef 0) "Seattle"
    {| heap := [JObj []]; trace := [] |} =
  (Return false, {| heap := [JObj []]; trace := [] |}).
Proof.
  split; [reflexivity|].
  apply (save_of_empty_payload Sample.world Sample.dashboard (PyRef 0) "Seattle"
           {| heap := [JObj []]; trace := [] |}).
  reflexivity.
Defined.



(** What provisioning adds to the trace. *)
Lemma create_bucket_if_not_exists_trace (w : World) (d : WeatherDashboard.t)
    (st : state) :
  let bucket := bucket_name d in
  let loc := location_constraint_for (aws_region d) in
  let probed := trace st ++ [EHeadBucket bucket; EPrint (MsgBucketCreating bucket)] in
  trace (snd (create_bucket_if_not_exists w d st)) =
    trace st ++
      (if negb (configured bucket) then [EPrint MsgBucketNameMissing]
       else if head_bucket w (trace st) bucket then
         [EHeadBucket bucket; EPrint (MsgBucketExists bucket)]
       else
         [EHeadBucket bucket; EPrint (MsgBucketCreating bucket);
          ECreateBucket bucket loc;
          EPrint (if create_bucket w probed bucket loc
                  then MsgBucketCreated bucket (aws_region d)
                  else MsgBucketCreateError)]).
Proof.
  cbv zeta. unfold create_bucket_if_not_exists, location_constraint_for.
  open_calls. open_monad.
  destruct (negb (configured (bucket_name d))); simpl; [done|].
  destruct (head_bucket w _ _); simpl; [by rewrite <- app_assoc|].
  destruct (String.eqb_spec (aws_region d) "us-east-1") as [Heq|Hne];
    destruct (decide (aws_region d = "us-east-1")); try done; simpl;
    rewrite <- !app_assoc; simpl;
    destruct (create_bucket w _ _ _); simpl; by rewrite <- ?app_assoc.
Qed.

(** C3.  The creation request of [create_bucket_if_not_exists] is shaped by the
    configured region.  The call adds a creation request to the trace exactly
    when a bucket name is configured and the existence probe fails; that
    request names the configured bucket and carries no location constraint
    when the region is ['us-east-1'], and a location constraint equal to the
    configured region for every other region. *)
Theorem create_request_follows_region (w : World) (d : WeatherDashboard.t)
    (st : state) :
  create_calls (trace (snd (create_bucket_if_not_exists w d st))) =
    create_calls (trace st) ++
      (if configured (bucket_name d) &&
          negb (head_bucket w (trace st) (bucket_name d))
       then [(bucket_name d,
              if decide (aws_region d = "us-east-1") then None
              else Some (aws_region d))]
       else []).
Proof.
  rewrite create_bucket_if_not_exists_trace. cbv zeta.
  unfold create_calls. rewrite omap_app. f_equal.
  destruct (configured (bucket_name d)); simpl; [|done].
  destruct (head_bucket w _ _); simpl; done.
Qed.

(** C8.  In every run, whatever the list of cities, provisioning happens at
    most once: the trace of the whole run holds at most one existence probe and
    at most one creation request. *)
Theorem provisioning_at_most_once (w : World) (d : WeatherDashboard.t)
    (cs : list string) :
  length (head_calls (trace (snd (run w d cs initial)))) <= 1 /\
  length (create_calls (trace (snd (run w d cs initial)))) <= 1.
Proof.
  unfold run, bind.
  pose proof (create_bucket_if_not_exists_returns w d initial) as Hret.
  pose proof (create_bucket_if_not_exists_trace w d initial) as Htr.
  destruct (create_bucket_if_not_exists w d initial) as [[[]|e] st0];
    simpl in Hret, Htr; [|done].
  destruct (for_each_emits w d cs st0) as (tr & Etr & Ftr).
  rewrite Etr. unfold head_calls, create_calls.
  rewrite !omap_app_silent;
    [| eapply Forall_impl; [exact Ftr | by intros []]
     | eapply Forall_impl; [exact Ftr | by intros []]].
  rewrite Htr. cbv zeta.
  destruct (negb (configured (bucket_name d))); simpl; [lia|].
  destruct (head_bucket w _ _); simpl; lia.
Qed.

(** ** Dictionaries *)

Lemma dict_get_set_eq k x d : dict_get k (dict_set k x d) = Some x.
Proof.
  unfold dict_set. induction d as [|[k' v] rest IH]; simpl.
  - by rewrite String.eqb_refl.
  - destruct (String.eqb k k') eqn:E; simpl; rewrite E; [done | exact IH].
Qed.

Lemma dict_get_set_ne k k' x d :
  k' <> k -> dict_get k' (dict_set k x d) = dict_get k' d.
Proof.
  intros Hne. unfold dict_set. induction d as [|[k0 v] rest IH]; simpl.
  - by destruct (String.eqb_spec k' k).
  - destruct (String.eqb_spec k k0) as [->|Hk]; simpl.
    + by destruct (String.eqb_spec k' k0).
    + by rewrite IH.
Qed.

(** ** The stamp reads back *)

(** Lets [lia] see through division and remainder by a constant. *)
Local Ltac Zify.zify_post_hook ::= Z.to_euclidean_division_equations.

Lemma digit_value_digit (n : N) : digit_value (digit n) = Some (n `mod` 10)%N.
Proof.
  unfold digit_value, digit.
  rewrite N_ascii_embedding by lia.
  destruct (N.leb_spec 48 (48 + n `mod` 10)) as [_|?]; [|lia].
  destruct (N.leb_spec (48 + n `mod` 10) 57) as [_|?]; [|lia].
  simpl. f_equal. lia.
Qed.

Lemma read_timestamp_strftime (t : datetime) :
  valid_datetime t = true -> read_timestamp (strftime t) = Some t.
Proof.
  unfold valid_datetime. rewrite !andb_true_iff, !N.leb_le.
  intros ((((((((Hy1 & Hy2) & Hm1) & Hm2) & Hd1) & Hd2) & Hh) & Hn) & Hs).
  destruct t as [y m dd h n s]; simpl in *.
  unfold read_timestamp, strftime, pad4, pad2. simpl.
  rewrite !digit_value_digit. simpl.
  f_equal. f_equal.
  all: lia.
Qed.

(** ** The sample codec reads what it writes *)

Lemma json_nested_ind (P : json -> Prop) :
  P JNull -> (forall b, P (JBool b)) -> (forall z, P (JInt z)) ->
  (forall f, P (JFloat f)) -> (forall s, P (JStr s)) ->
  (forall items, Forall P items -> P (JArr items)) ->
  (forall fields, Forall (fun kv => P (snd kv)) fields -> P (JObj fields)) ->
  forall v, P v.
Proof.
  intros Hnull Hbool Hint Hfloat Hstr Harr Hobj.
  fix IH 1. intros [ | b | z | f | s | items | fields ].
  - exact Hnull.
  - apply Hbool.
  - apply Hint.
  - apply Hfloat.
  - apply Hstr.
  - apply Harr.
    induction items as [|x xs IHxs]; constructor; [apply IH | exact IHxs].
  - apply Hobj.
    induction fields as [|[k x] xs IHxs]; constructor; [apply IH | exact IHxs].
Qed.

Module SampleCodecFacts.
Import SampleCodec.

Lemma unbits_bits p : unbits (bits p) = p.
Proof. induction p; simpl; congruence. Qed.

Lemma of_to_tree v : of_tree (to_tree v) = v.
Proof.
  induction v as [ | b | z | f | s | items IH | fields IH ]
    using json_nested_ind; simpl; try reflexivity.
  - by destruct b.
  - destruct f as [[]|[]| |[] m e]; reflexivity.
  - f_equal. induction IH; simpl; [done|]. congruence.
  - f_equal.
    induction IH as [|[k x] xs Hx _ IHxs]; simpl in *; [done|]. congruence.
Qed.

Lemma loads_dumps v : loads (dumps v) = Some v.
Proof.
  unfold loads, dumps. rewrite unbits_bits, decode_encode. simpl.
  by rewrite of_to_tree.
Qed.

End SampleCodecFacts.

Arguments SampleCodec.dumps : simpl never.
Arguments SampleCodec.loads : simpl never.

(** ** The claims on [save_to_s3] *)

(** What [save_to_s3] puts, for any payload. *)
Lemma save_to_s3_puts (w : World) (d : WeatherDashboard.t) (x : value)
    (city : string) (st : state) :
  let ts := strftime (datetime_now w (trace st)) in
  put_calls (trace (snd (save_to_s3 w d x city st))) =
    put_calls (trace st) ++
      match archived_document (object_of st x) ts with
      | Some doc => [(file_name city ts, json_dumps w doc)]
      | None => []
      end.
Proof.
  cbv zeta. destruct (truthy (object_of st x)) eqn:Ht.
  - destruct (archived_document (object_of st x) _) as [doc|] eqn:Hd.
    + destruct x as [|l]; simpl in Hd; [done|].
      destruct (heap_get (heap st) l) as [ | | | | | |[|f fields]] eqn:Hg;
        simpl in Hd; try done.
      injection Hd as <-.
      assert (heap st !! l = Some (JObj (f :: fields))) as Hl.
      { unfold heap_get in Hg. by destruct (heap st !! l); simplify_eq/=. }
      rewrite (save_to_s3_dict w d l f fields city st Hl). cbv zeta.
      unfold put_calls.
      destruct (put_object w _ _ _ _ _); simpl; by rewrite omap_app.
    + rewrite save_to_s3_not_dict by done. simpl.
      unfold put_calls. rewrite omap_app. simpl. by rewrite app_nil_r.
  - rewrite save_to_s3_falsy by done. simpl.
    destruct (object_of st x) as [ | | | | | |[|f fields]]; simpl in *;
      try done; by rewrite app_nil_r.
Qed.

(** C10.  For every non-empty payload mapping, [save_to_s3] changes the
    caller's object in place: after the call the reference holds the payload
    with ['timestamp'] set to the stamp just computed from the clock, whatever
    the payload held under that key before, and nothing else in the heap moves.
    The body handed to the store is the serialisation of the stamped object, so
    the assignment precedes the put; and the result is [True] or [False] as the
    put succeeds or fails, the stamped object staying in place in both cases. *)
Theorem save_stamps_payload_in_place (w : World) (d : WeatherDashboard.t)
    (l : nat) (f : string * json) (fields : list (string * json))
    (city : string) (st : state) :
  heap st !! l = Some (JObj (f :: fields)) ->
  let ts := strftime (datetime_now w (trace st)) in
  let doc := JObj (dict_set "timestamp" (JStr ts) (f :: fields)) in
  let body := json_dumps w doc in
  let after := save_to_s3 w d (PyRef l) city st in
  heap (snd after) = <[l := doc]> (heap st) /\
  object_of (snd after) (PyRef l) = doc /\
  getitem_str doc "timestamp" = Return (JStr ts) /\
  put_calls (trace (snd after)) = put_calls (trace st) ++ [(file_name city ts, body)] /\
  fst after =
    Return (put_object w (trace st) (bucket_name d) (file_name city ts) body
              "application/json").
Proof.
  intros Hl. cbv zeta.
  assert (l < length (heap st)) as Hlt by (eapply lookup_lt_Some; eauto).
  pose proof (save_to_s3_puts w d (PyRef l) city st) as Hputs.
  cbv zeta in Hputs. simpl in Hputs.
  rewrite (heap_get_lookup _ _ _ Hl) in Hputs. simpl in Hputs.
  split_and!; [| | | exact Hputs |].
  - rewrite (save_to_s3_dict w d l f fields city st Hl). cbv zeta.
    by destruct (put_object w _ _ _ _ _).
  - rewrite (save_to_s3_dict w d l f fields city st Hl). cbv zeta.
    destruct (put_object w _ _ _ _ _); simpl; by rewrite heap_get_insert.
  - unfold getitem_str. by rewrite dict_get_set_eq.
  - rewrite (save_to_s3_dict w d l f fields city st Hl). cbv zeta.
    by destruct (put_object w _ _ _ _ _).
Qed.

Lemma save_stamps_payload_in_place_witness :
  let st := {| heap := [Sample.stamped]; trace := [] |} in
  heap st !! 0 = Some Sample.stamped /\
  object_of (snd (save_to_s3 Sample.world Sample.dashboard (PyRef 0) "New York" st))
    (PyRef 0) =
    JObj [("timestamp", JStr "20240301-090507");
          ("main", JObj [("temp", JInt 72)])] /\
  fst (save_to_s3 Sample.world Sample.dashboard (PyRef 0) "New York" st) =
    Return false.
Proof.
  cbv zeta. split; [reflexivity|].
  pose proof (save_stamps_payload_in_place Sample.world Sample.dashboard 0
                ("timestamp", JInt 1709283907)
                [("main", JObj [("temp", JInt 72)])] "New York"
                {| heap := [Sample.stamped]; trace := [] |} eq_refl)
    as (_ & Hobj & _ & _ & Hres).
  split; [exact Hobj | exact Hres].
Defined.

(** C5.  For every city and every capture time, the object key [save_to_s3]
    uses is ['weather-data/{city}-{timestamp}.json']: a call puts at most one
    object, under that key, with [timestamp] the capture time written as
    [YYYYMMDD-HHMMSS], which reads back to the capture time.  City ["Seattle"]
    captured at 2024-03-01 09:05:07 gives
    ['weather-data/Seattle-20240301-090507.json']. *)
Theorem archive_key_format (w : World) (d : WeatherDashboard.t) (x : value)
    (city : string) (st : state) (t : datetime) :
  datetime_now w (trace st) = t ->
  valid_datetime t = true ->
  put_calls (trace (snd (save_to_s3 w d x city st))) =
    put_calls (trace st) ++
      match archived_document (object_of st x) (strftime t) with
      | Some doc =>
          [("weather-data/" +:+ city +:+ "-" +:+ strftime t +:+ ".json",
            json_dumps w doc)]
      | None => []
      end /\
  read_timestamp (strftime t) = Some t /\
  file_name "Seattle"
    (strftime {| year := 2024; month := 3; day := 1;
                 hour := 9; minute := 5; second := 7 |}) =
    "weather-data/Seattle-20240301-090507.json".
Proof.
  intros <- Hvalid. split_and!.
  - apply save_to_s3_puts.
  - by apply read_timestamp_strftime.
  - reflexivity.
Qed.

Lemma archive_key_format_witness :
  let st := {| heap := [Sample.clear_sky]; trace := [] |} in
  valid_datetime Sample.capture_time = true /\
  map fst (put_calls (trace (snd (save_to_s3 Sample.world Sample.dashboard
                                    (PyRef 0) "Seattle" st)))) =
    ["weather-data/Seattle-20240301-090507.json"].
Proof.
  cbv zeta. split; [reflexivity|].
  pose proof (archive_key_format Sample.world Sample.dashboard (PyRef 0) "Seattle"
                {| heap := [Sample.clear_sky]; trace := [] |}
                Sample.capture_time eq_refl eq_refl) as (Hputs & _).
  rewrite Hputs. reflexivity.
Defined.

(** C4, as the code has it.  For every archived snapshot (a call of
    [save_to_s3] that returns [True]) and every reader that inverts the
    serialiser, the stored body read back is a document whose ['timestamp']
    field is the stamp in the object key, and which holds every field of the
    payload other than ['timestamp'] with the value it had before the call. *)
Theorem archive_round_trip (w : World) (d : WeatherDashboard.t)
    (weather_data : value) (city : string) (st st' : state)
    (loads : string -> option json) :
  (forall v, loads (json_dumps w v) = Some v) ->
  save_to_s3 w d weather_data city st = (Return true, st') ->
  exists ts body doc,
    put_calls (trace st') = put_calls (trace st) ++ [(file_name city ts, body)] /\
    loads body = Some doc /\
    getitem_str doc "timestamp" = Return (JStr ts) /\
    forall k v,
      k <> "timestamp" ->
      getitem_str (object_of st weather_data) k = Return v ->
      getitem_str doc k = Return v.
Proof.
  intros Hloads Hsave.
  pose proof (save_to_s3_puts w d weather_data city st) as Hputs.
  cbv zeta in Hputs. rewrite Hsave in Hputs. simpl in Hputs.
  destruct (truthy (object_of st weather_data)) eqn:Ht;
    [| by rewrite save_to_s3_falsy in Hsave].
  destruct (archived_document (object_of st weather_data) _) as [doc|] eqn:Hd;
    [| by rewrite save_to_s3_not_dict in Hsave].
  exists (strftime (datetime_now w (trace st))), (json_dumps w doc), doc.
  split_and!; [exact Hputs | apply Hloads | |].
  - destruct (object_of st weather_data) as [ | | | | | |[|f fields]];
      simpl in Hd; try done.
    injection Hd as <-. unfold getitem_str. by rewrite dict_get_set_eq.
  - intros k v Hk.
    destruct (object_of st weather_data) as [ | | | | | |[|f fields]];
      simpl in Hd; try done.
    injection Hd as <-. unfold getitem_str. by rewrite dict_get_set_ne.
Qed.

Lemma archive_round_trip_witness :
  let st := {| heap := [Sample.clear_sky]; trace := [] |} in
  let after := save_to_s3 Sample.world Sample.dashboard (PyRef 0) "Seattle" st in
  fst after = Return true /\
  exists ts body doc,
    put_calls (trace (snd after)) = [(file_name "Seattle" ts, body)] /\
    SampleCodec.loads body = Some doc /\
    getitem_str doc "timestamp" = Return (JStr ts) /\
    forall k v,
      k <> "timestamp" ->
      getitem_str Sample.clear_sky k = Return v -> getitem_str doc k = Return v.
Proof.
  cbv zeta.
  assert (save_to_s3 Sample.world Sample.dashboard (PyRef 0) "Seattle"
            {| heap := [Sample.clear_sky]; trace := [] |} =
          (Return true,
           snd (save_to_s3 Sample.world Sample.dashboard (PyRef 0) "Seattle"
                  {| heap := [Sample.clear_sky]; trace := [] |}))) as Hsave.
  { rewrite (save_to_s3_dict Sample.world Sample.dashboard 0 _ _ "Seattle"
               {| heap := [Sample.clear_sky]; trace := [] |} eq_refl).
    reflexivity. }
  split; [by rewrite Hsave|].
  exact (archive_round_trip Sample.world Sample.dashboard (PyRef 0) "Seattle"
           {| heap := [Sample.clear_sky]; trace := [] |} _ SampleCodec.loads
           SampleCodecFacts.loads_dumps Hsave).
Defined.

(** C4, as stated, fails on a payload that already has a ['timestamp'] field:
    the call archives it, and the document read back holds the new stamp where
    the payload held 1709283907. *)
Lemma stamped_payload_loses_its_timestamp :
  ~ round_trip_keeps_every_field Sample.world Sample.dashboard (PyRef 0) "Seattle"
      {| heap := [Sample.stamped]; trace := [] |} SampleCodec.loads.
Proof.
  intros Hclaim.
  pose proof (save_to_s3_dict Sample.world Sample.dashboard 0 _ _ "Seattle"
                {| heap := [Sample.stamped]; trace := [] |} eq_refl) as Hsave.
  cbv zeta in Hsave.
  change (put_object Sample.world _ _ _ _ _) with true in Hsave.
  cbv iota in Hsave.
  destruct (Hclaim _ Hsave) as (ts & body & doc & Hputs & Hloads & _ & Hkeep).
  simpl in Hputs. injection Hputs as _ <-.
  rewrite SampleCodecFacts.loads_dumps in Hloads. injection Hloads as <-.
  specialize (Hkeep "timestamp" (JInt 1709283907) eq_refl).
  vm_compute in Hkeep. discriminate.
Qed.

(** ** The claims on the loop *)

Section LoopClaims.

Variable w : World.
Variable d : WeatherDashboard.t.

(** [save_to_s3] swallows every failure. *)
Lemma save_to_s3_returns x city st :
  exists b, fst (save_to_s3 w d x city st) = Return b.
Proof.
  unfold save_to_s3, store_item. open_calls. open_monad. simpl.
  destruct (truthy (object_of st x)); simpl; [|by eexists].
  destruct x as [|l]; simpl; [by eexists|].
  destruct (setitem_str _ _ _); simpl; [|by eexists].
  destruct (put_object w _ _ _ _ _); simpl; by eexists.
Qed.

Lemma fetch_event_silent (f : event -> option string) tr :
  (forall e, fetch_event e = true \/ save_event e = true -> f e = None) ->
  Forall (fun e => fetch_event e = true) tr \/
  Forall (fun e => save_event e = true) tr ->
  Forall (fun e => f e = None) tr.
Proof.
  intros Hf [H|H]; (eapply Forall_impl; [exact H|]); intros e He; apply Hf; eauto.
Qed.

Lemma attempt_silent e :
  fetch_event e = true \/ save_event e = true -> as_attempt e = None.
Proof. destruct e as [[]| | | |]; simpl; intros [?|?]; done. Qed.



End LoopClaims.

(** Without a key the loop stores nothing. *)
Lemma for_each_without_key (w : World) (d : WeatherDashboard.t)
    (cs : list string) (st : state) :
  configured (api_key d) = false ->
  put_calls (trace (snd (for_each w d cs st))) = put_calls (trace st).
Proof.
  intros Hc. revert st. induction cs as [|city rest IH]; intros st; simpl.
  - reflexivity.
  - unfold bind. rewrite visit_unfold, fetch_weather_unconfigured by done.
    simpl. rewrite IH. simpl. unfold put_calls. rewrite !omap_app. simpl.
    by rewrite !app_nil_r.
Qed.

(** C1.  For every city of the configured list: if the run reaches the city
    and its fetch returns the failure signal [None], the iteration does nothing
    after the fetch but print that the fetch failed; [save_to_s3] is not
    entered and no call goes to the store.  The run up to and including that
    city has exactly the storage puts of the run up to the city before it. *)
Theorem failed_fetch_never_archives (w : World) (d : WeatherDashboard.t)
    (i : nat) (city : string) (st : state) :
  cities !! i = Some city ->
  run w d (take i cities) initial = (Return tt, st) ->
  fst (fetch_weather w d city (at_fetch city st)) = Return PyNone ->
  exists st',
    run w d (take (S i) cities) initial = (Return tt, st') /\
    st' = say (MsgFetchFailed city)
            (snd (fetch_weather w d city (at_fetch city st))) /\
    put_calls (trace st') = put_calls (trace st).
Proof.
  intros Hi Hrun Hfetch.
  rewrite (take_S_r _ _ _ Hi), run_snoc, Hrun, visit_unfold.
  pose proof (fetch_weather_emits w d city (at_fetch city st)) as (tr & Etr & Ftr).
  destruct (fetch_weather w d city (at_fetch city st)) as [o st1].
  simpl in Hfetch, Etr. subst o. simpl.
  eexists. split_and!; [reflexivity | reflexivity |].
  simpl. rewrite Etr. unfold put_calls.
  rewrite omap_app_silent by (by repeat constructor).
  rewrite omap_app_silent
    by (eapply Forall_impl; [exact Ftr | by intros [[]| | | |]]).
  simpl. by rewrite omap_app_silent by (by repeat constructor).
Qed.

Lemma failed_fetch_never_archives_witness :
  let st := snd (run Sample.world Sample.dashboard (take 1 cities) initial) in
  cities !! 1 = Some "Seattle" /\
  run Sample.world Sample.dashboard (take 1 cities) initial = (Return tt, st) /\
  fst (fetch_weather Sample.world Sample.dashboard "Seattle"
         (at_fetch "Seattle" st)) = Return PyNone /\
  exists st',
    run Sample.world Sample.dashboard (take 2 cities) initial = (Return tt, st') /\
    st' = say (MsgFetchFailed "Seattle")
            (snd (fetch_weather Sample.world Sample.dashboard "Seattle"
                    (at_fetch "Seattle" st))) /\
    put_calls (trace st') = put_calls (trace st).
Proof.
  cbv zeta. split; [reflexivity|]. split; [reflexivity|]. split; [reflexivity|].
  apply (failed_fetch_never_archives Sample.world Sample.dashboard 1 "Seattle"
           (snd (run Sample.world Sample.dashboard (take 1 cities) initial)));
    reflexivity.
Defined.





(** * Further properties of the methods *)

(** ** Provisioning *)

(** X1.  Without a bucket name (unset or empty), [create_bucket_if_not_exists]
    prints that the name is missing and returns: it probes nothing and creates
    nothing, and the heap is as before. *)
Theorem provisioning_without_bucket_name (w : World) (d : WeatherDashboard.t)
    (st : state) :
  bucket_name d = None \/ bucket_name d = Some "" ->
  create_bucket_if_not_exists w d st = (Return tt, say MsgBucketNameMissing st) /\
  head_calls (trace (snd (create_bucket_if_not_exists w d st))) =
    head_calls (trace st) /\
  create_calls (trace (snd (create_bucket_if_not_exists w d st))) =
    create_calls (trace st).
Proof.
  intros Hname.
  assert (create_bucket_if_not_exists w d st =
          (Return tt, say MsgBucketNameMissing st)) as ->.
  { unfold create_bucket_if_not_exists.
    by destruct Hname as [-> | ->]. }
  simpl. unfold head_calls, create_calls.
  rewrite !omap_app_silent by (by repeat constructor). done.
Qed.

Lemma provisioning_without_bucket_name_witness :
  (bucket_name Scenario.dashboard_without_bucket = None \/
   bucket_name Scenario.dashboard_without_bucket = Some "") /\
  create_bucket_if_not_exists Sample.world Scenario.dashboard_without_bucket
    initial =
  (Return tt, {| heap := []; trace := [EPrint MsgBucketNameMissing] |}).
Proof.
  split; [left; reflexivity|].
  apply (provisioning_without_bucket_name Sample.world
           Scenario.dashboard_without_bucket initial).
  left; reflexivity.
Defined.


(** X3.  When the environment sets no [AWS_REGION], the dashboard works in
    ['eu-west-2'], and a creation request, if one is made, carries the location
    constraint ['eu-west-2']. *)
Theorem default_region_is_constrained (w : World) (environ : gmap string string)
    (st : state) :
  environ !! "AWS_REGION" = None ->
  let d := WeatherDashboard.attributes environ in
  aws_region d = "eu-west-2" /\
  create_calls (trace (snd (create_bucket_if_not_exists w d st))) =
    create_calls (trace st) ++
      (if configured (bucket_name d) &&
          negb (head_bucket w (trace st) (bucket_name d))
       then [(bucket_name d, Some "eu-west-2")]
       else []).
Proof.
  intros Hregion. cbv zeta.
  assert (aws_region (WeatherDashboard.attributes environ) = "eu-west-2") as Hr.
  { unfold WeatherDashboard.attributes. simpl. by rewrite Hregion. }
  split; [exact Hr|].
  rewrite create_bucket_if_not_exists_trace. cbv zeta. rewrite Hr.
  unfold create_calls. rewrite omap_app. f_equal.
  destruct (configured _); simpl; [|done].
  destruct (head_bucket w _ _); simpl; done.
Qed.

Lemma default_region_is_constrained_witness :
  Sample.environ !! "AWS_REGION" = None /\
  create_calls (trace (snd (create_bucket_if_not_exists Sample.world
                              Sample.dashboard initial))) =
    [(Some "archive", Some "eu-west-2")].
Proof.
  split; [reflexivity|].
  apply (default_region_is_constrained Sample.world Sample.environ initial).
  reflexivity.
Defined.

(** ** Fetching *)

(** X4.  With a key configured and a reply that parses to a document other than
    [null], [fetch_weather] returns a reference to a new object that is the
    parsed document as it came, without a field added or removed; the objects
    already in the heap stay as they are, and the one event added is the
    request, sent to the current-conditions address with the city as [q], the
    configured key as [appid] and imperial units. *)
Theorem fetch_returns_the_reply_unmodified (w : World) (d : WeatherDashboard.t)
    (city : string) (st : state) (v : json) :
  configured (api_key d) = true ->
  requests_get w (trace st) weather_url (weather_params d city) = HttpJson v ->
  v <> JNull ->
  let after := fetch_weather w d city st in
  let fresh := PyRef (length (heap st)) in
  fst after = Return fresh /\
  object_of (snd after) fresh = v /\
  heap (snd after) = heap st ++ [v] /\
  trace (snd after) =
    trace st ++
      [EHttpGet "http://api.openweathermap.org/data/2.5/weather"
         [("q", Some city); ("appid", api_key d); ("units", Some "imperial")]].
Proof.
  intros Hkey Hreply Hv. cbv zeta.
  rewrite fetch_weather_configured by done. cbv zeta. rewrite Hreply.
  destruct v; try done; simpl; by rewrite heap_get_alloc.
Qed.

Lemma fetch_returns_the_reply_unmodified_witness :
  configured (api_key Sample.dashboard) = true /\
  Sample.clear_sky <> JNull /\
  fst (fetch_weather Sample.world Sample.dashboard "Philadelphia" initial) =
    Return (PyRef 0) /\
  object_of (snd (fetch_weather Sample.world Sample.dashboard "Philadelphia"
                    initial)) (PyRef 0) = Sample.clear_sky.
Proof.
  split; [reflexivity|]. split; [discriminate|].
  pose proof (fetch_returns_the_reply_unmodified Sample.world Sample.dashboard
                "Philadelphia" initial Sample.clear_sky eq_refl eq_refl
                ltac:(discriminate)) as (Hret & Hobj & _).
  split; [exact Hret | exact Hobj].
Defined.



(** X6.  [fetch_weather] catches [RequestException] and nothing else: an
    exception of another class raised while the reply is fetched or parsed
    leaves [fetch_weather] as it is, after the request and with nothing
    printed, and ends the iteration of the loop with it. *)
Theorem other_exceptions_leave_fetch (w : World) (d : WeatherDashboard.t)
    (city : string) (st : state) (e : exn) :
  configured (api_key d) = true ->
  requests_get w (trace (at_fetch city st)) weather_url (weather_params d city) =
    HttpRaise e ->
  is_RequestException e = false ->
  let sent :=
    {| heap := heap st;
       trace := trace st ++ [EPrint (MsgFetching city);
                             EHttpGet weather_url (weather_params d city)] |} in
  fetch_weather w d city (at_fetch city st) = (Raise e, sent) /\
  visit w d city st = (Raise e, sent).
Proof.
  intros Hkey Hreply He. cbv zeta.
  assert (fetch_weather w d city (at_fetch city st) =
          (Raise e,
           {| heap := heap st;
              trace := trace st ++ [EPrint (MsgFetching city);
                                    EHttpGet weather_url (weather_params d city)] |}))
    as Hfetch.
  { rewrite fetch_weather_configured by done. cbv zeta. rewrite Hreply, He.
    simpl. by rewrite <- app_assoc. }
  split; [exact Hfetch|]. by rewrite visit_unfold, Hfetch.
Qed.

Lemma other_exceptions_leave_fetch_witness :
  configured (api_key Sample.dashboard) = true /\
  is_RequestException OtherError = false /\
  fst (visit Scenario.world_other_error Sample.dashboard "Seattle" initial) =
    Raise OtherError.
Proof.
  split; [reflexivity|]. split; [reflexivity|].
  pose proof (other_exceptions_leave_fetch Scenario.world_other_error
                Sample.dashboard "Seattle" initial OtherError
                eq_refl eq_refl eq_refl) as (_ & Hvisit).
  by rewrite Hvisit.
Defined.

(** ** Archiving *)

(** What [save_to_s3] adds to the trace, for any payload. *)
Lemma save_to_s3_trace (w : World) (d : WeatherDashboard.t) (x : value)
    (city : string) (st : state) :
  let ts := strftime (datetime_now w (trace st)) in
  let key := file_name city ts in
  trace (snd (save_to_s3 w d x city st)) =
    trace st ++
      match archived_document (object_of st x) ts with
      | Some doc =>
          [EPutObject (bucket_name d) key (json_dumps w doc) "application/json";
           EPrint (if put_object w (trace st) (bucket_name d) key
                        (json_dumps w doc) "application/json"
                   then MsgSavedToS3 city else MsgSaveError)]
      | None => if truthy (object_of st x) then [EPrint MsgSaveError] else []
      end.
Proof.
  cbv zeta. destruct (truthy (object_of st x)) eqn:Ht.
  - destruct (archived_document (object_of st x) _) as [doc|] eqn:Hd.
    + destruct x as [|l]; simpl in Hd; [done|].
      destruct (heap_get (heap st) l) as [ | | | | | |[|f fields]] eqn:Hg;
        simpl in Hd; try done.
      injection Hd as <-.
      assert (heap st !! l = Some (JObj (f :: fields))) as Hl.
      { unfold heap_get in Hg. by destruct (heap st !! l); simplify_eq/=. }
      rewrite (save_to_s3_dict w d l f fields city st Hl). cbv zeta.
      by destruct (put_object w _ _ _ _ _).
    + by rewrite save_to_s3_not_dict.
  - rewrite save_to_s3_falsy by done. simpl.
    destruct (object_of st x) as [ | | | | | |[|f fields]]; simpl in *;
      try done; by rewrite app_nil_r.
Qed.

(** X7.  A [True] from [save_to_s3] means the object was put: the call
    returns [True] only when the payload is a non-empty dict and the put of its
    stamped serialisation, under the city's key, returned.  (Nothing is said
    here of the other direction, which also depends on the success line being
    printed.) *)
Theorem save_true_means_the_put_returned (w : World) (d : WeatherDashboard.t)
    (x : value) (city : string) (st : state) :
  fst (save_to_s3 w d x city st) = Return true ->
  let ts := strftime (datetime_now w (trace st)) in
  exists doc,
    archived_document (object_of st x) ts = Some doc /\
    put_object w (trace st) (bucket_name d) (file_name city ts)
      (json_dumps w doc) "application/json" = true /\
    put_calls (trace (snd (save_to_s3 w d x city st))) =
      put_calls (trace st) ++ [(file_name city ts, json_dumps w doc)].
Proof.
  intros Htrue. cbv zeta.
  pose proof (save_to_s3_puts w d x city st) as Hputs. cbv zeta in Hputs.
  destruct (truthy (object_of st x)) eqn:Ht;
    [| by rewrite save_to_s3_falsy in Htrue].
  destruct (archived_document (object_of st x) _) as [doc|] eqn:Hd;
    [| by rewrite save_to_s3_not_dict in Htrue].
  exists doc. split_and!; [done | | exact Hputs].
  destruct x as [|l]; simpl in Hd; [done|].
  destruct (heap_get (heap st) l) as [ | | | | | |[|f fields]] eqn:Hg;
    simpl in Hd; try done.
  injection Hd as <-.
  assert (heap st !! l = Some (JObj (f :: fields))) as Hl.
  { unfold heap_get in Hg. by destruct (heap st !! l); simplify_eq/=. }
  rewrite (save_to_s3_dict w d l f fields city st Hl) in Htrue.
  cbv zeta in Htrue. by destruct (put_object w _ _ _ _ _).
Qed.

Lemma save_true_means_the_put_returned_witness :
  let st := {| heap := [Sample.clear_sky]; trace := [] |} in
  fst (save_to_s3 Sample.world Sample.dashboard (PyRef 0) "Seattle" st) =
    Return true /\
  map fst (put_calls (trace (snd (save_to_s3 Sample.world Sample.dashboard
                                    (PyRef 0) "Seattle" st)))) =
    ["weather-data/Seattle-20240301-090507.json"].
Proof.
  cbv zeta.
  assert (fst (save_to_s3 Sample.world Sample.dashboard (PyRef 0) "Seattle"
                 {| heap := [Sample.clear_sky]; trace := [] |}) = Return true)
    as Htrue.
  { rewrite (save_to_s3_dict Sample.world Sample.dashboard 0 _ _ "Seattle"
               {| heap := [Sample.clear_sky]; trace := [] |} eq_refl).
    reflexivity. }
  split; [exact Htrue|].
  destruct (save_true_means_the_put_returned Sample.world Sample.dashboard
              (PyRef 0) "Seattle" {| heap := [Sample.clear_sky]; trace := [] |}
              Htrue) as (doc & _ & _ & Hputs).
  rewrite Hputs. reflexivity.
Defined.

(** X8.  A truthy payload that is not a dict (a list, a string, a number) is
    not archived: the assignment of ['timestamp'] fails, [save_to_s3] prints
    the error and returns [False], no put is made and the payload is as
    before. *)
Theorem save_of_a_payload_that_is_no_dict (w : World) (d : WeatherDashboard.t)
    (x : value) (city : string) (st : state) :
  truthy (object_of st x) = true ->
  (forall fields, object_of st x <> JObj fields) ->
  save_to_s3 w d x city st = (Return false, say MsgSaveError st) /\
  put_calls (trace (snd (save_to_s3 w d x city st))) = put_calls (trace st) /\
  object_of (snd (save_to_s3 w d x city st)) x = object_of st x.
Proof.
  intros Ht Hnd.
  assert (save_to_s3 w d x city st = (Return false, say MsgSaveError st)) as ->.
  { apply save_to_s3_not_dict; [done|].
    destruct (object_of st x) as [ | | | | | |fields]; try done.
    by destruct (Hnd fields). }
  split_and!; [done | | by destruct x].
  simpl. unfold put_calls. by rewrite omap_app_silent by (by repeat constructor).
Qed.

Lemma save_of_a_payload_that_is_no_dict_witness :
  let st := {| heap := [Scenario.list_payload]; trace := [] |} in
  truthy (object_of st (PyRef 0)) = true /\
  save_to_s3 Sample.world Sample.dashboard (PyRef 0) "Seattle" st =
    (Return false,
     {| heap := [Scenario.list_payload]; trace := [EPrint MsgSaveError] |}).
Proof.
  cbv zeta. split; [reflexivity|].
  apply (save_of_a_payload_that_is_no_dict Sample.world Sample.dashboard
           (PyRef 0) "Seattle" {| heap := [Scenario.list_payload]; trace := [] |});
    [reflexivity | discriminate].
Defined.

(** ** Object keys *)

Lemma list_ascii_of_string_app (s1 s2 : string) :
  list_ascii_of_string (s1 +:+ s2) =
    list_ascii_of_string s1 ++ list_ascii_of_string s2.
Proof. induction s1 as [|c s1 IH]; simpl; [done | by rewrite IH]. Qed.

Lemma list_ascii_of_string_inj (s1 s2 : string) :
  list_ascii_of_string s1 = list_ascii_of_string s2 -> s1 = s2.
Proof.
  intros H. rewrite <- (string_of_list_ascii_of_string s1),
    <- (string_of_list_ascii_of_string s2). by rewrite H.
Qed.

Lemma strftime_length (t : datetime) :
  length (list_ascii_of_string (strftime t)) = 15.
Proof. reflexivity. Qed.

(** The key tells the city and the stamp apart, for stamps of one length. *)
Lemma file_name_inj (c1 c2 s1 s2 : string) :
  length (list_ascii_of_string s1) = length (list_ascii_of_string s2) ->
  file_name c1 s1 = file_name c2 s2 ->
  c1 = c2 /\ s1 = s2.
Proof.
  unfold file_name. intros Hlen Heq.
  apply (f_equal list_ascii_of_string) in Heq. simpl in Heq.
  repeat (injection Heq as Heq).
  rewrite !list_ascii_of_string_app in Heq. simpl in Heq.
  apply app_inj_2 in Heq as [Hc Hrest].
  - split; [by apply list_ascii_of_string_inj|].
    injection Hrest as Hrest.
    apply app_inj_2 in Hrest as [Hts _]; [|done].
    by apply list_ascii_of_string_inj.
  - simpl. by rewrite !length_app, Hlen.
Qed.

(** X9.  The object key tells captures apart: for capture times as the clock
    gives them, two archive keys are equal only for the same city and the same
    second.  In particular no city name, whatever hyphens or digits it holds,
    makes the key of one city pass for the key of another. *)
Theorem distinct_captures_have_distinct_keys (c1 c2 : string)
    (t1 t2 : datetime) :
  valid_datetime t1 = true ->
  valid_datetime t2 = true ->
  c1 <> c2 \/ t1 <> t2 ->
  file_name c1 (strftime t1) <> file_name c2 (strftime t2).
Proof.
  intros V1 V2 Hne Heq.
  apply file_name_inj in Heq as [Hc Hts];
    [| by rewrite !strftime_length].
  destruct Hne as [Hne|Hne]; [done|]. apply Hne.
  apply read_timestamp_strftime in V1, V2.
  rewrite Hts in V1. congruence.
Qed.

Lemma distinct_captures_have_distinct_keys_witness :
  valid_datetime Sample.capture_time = true /\
  file_name "Seattle" (strftime Sample.capture_time) <>
  file_name "New York" (strftime Sample.capture_time).
Proof.
  split; [reflexivity|].
  apply (distinct_captures_have_distinct_keys "Seattle" "New York"
           Sample.capture_time Sample.capture_time);
    [reflexivity | reflexivity | left; discriminate].
Defined.

(** * Further properties of the loop *)

(** The calls of one [fetch_weather]. *)
Lemma fetch_weather_calls (w : World) (d : WeatherDashboard.t) (city : string)
    (st : state) :
  let st1 := snd (fetch_weather w d city st) in
  attempted (trace st1) = attempted (trace st) /\
  http_calls (trace st1) =
    http_calls (trace st) ++
      (if configured (api_key d) then [weather_request d city] else []) /\
  put_requests (trace st1) = put_requests (trace st).
Proof.
  cbv zeta. destruct (configured (api_key d)) eqn:Hc.
  - rewrite fetch_weather_configured by done. cbv zeta.
    destruct (requests_get w _ _ _) as [e|v].
    + destruct (is_RequestException e); by read_calls.
    + destruct v; by read_calls.
  - rewrite fetch_weather_unconfigured by done. by read_calls.
Qed.

(** The calls of one iteration, however it ends: the city is announced, one
    request is sent if a key is configured, and at most one put is asked
    for, for this city. *)
Lemma visit_calls (w : World) (d : WeatherDashboard.t) (city : string)
    (st : state) :
  let after := snd (visit w d city st) in
  attempted (trace after) = attempted (trace st) ++ [city] /\
  http_calls (trace after) =
    http_calls (trace st) ++
      (if configured (api_key d) then [weather_request d city] else []) /\
  exists stamps : list string,
    length stamps <= 1 /\
    put_requests (trace after) =
      put_requests (trace st) ++
        map (fun ts => archive_request d (city, ts)) stamps.
Proof.
  cbv zeta. rewrite visit_unfold.
  pose proof (fetch_weather_calls w d city (at_fetch city st)) as (Ha & Hh & Hp).
  cbv zeta in Ha, Hh, Hp.
  assert (attempted (trace (at_fetch city st)) = attempted (trace st) ++ [city])
    as Ha0 by by read_calls.
  assert (http_calls (trace (at_fetch city st)) = http_calls (trace st))
    as Hh0 by by read_calls.
  assert (put_requests (trace (at_fetch city st)) = put_requests (trace st))
    as Hp0 by by read_calls.
  rewrite Ha0 in Ha. rewrite Hh0 in Hh. rewrite Hp0 in Hp.
  clear Ha0 Hh0 Hp0.
  destruct (fetch_weather w d city (at_fetch city st)) as [[x|e] st1];
    simpl in Ha, Hh, Hp.
  2: { simpl. split_and!; [done | done |]. exists []. simpl.
       split; [lia | by rewrite app_nil_r]. }
  destruct (truthy (object_of st1 x)).
  2: { simpl. unfold attempted, http_calls, put_requests in *.
       rewrite !omap_app. simpl. rewrite !app_nil_r.
       split_and!; [done | done |]. exists []. simpl.
       split; [lia | by rewrite app_nil_r]. }
  destruct (display_fields (object_of st1 x)) as [fields|e].
  2: { simpl. split_and!; [done | done |]. exists []. simpl.
       split; [lia | by rewrite app_nil_r]. }
  pose proof (display_all_emits w fields st1) as (trd & Ed & Fd).
  destruct (display_all w (display_lines fields) st1) as [o2 st2].
  simpl in Ed.
  assert (attempted (trace st2) = attempted (trace st) ++ [city]) as Ha2.
  { rewrite Ed. unfold attempted in *. rewrite omap_app_silent; [done|].
    eapply Forall_impl; [exact Fd|]. by intros [[]| | | |]. }
  assert (http_calls (trace st2) =
          http_calls (trace st) ++
            (if configured (api_key d) then [weather_request d city] else []))
    as Hh2.
  { rewrite Ed. unfold http_calls in *. rewrite omap_app_silent; [done|].
    eapply Forall_impl; [exact Fd|]. by intros [[]| | | |]. }
  assert (put_requests (trace st2) = put_requests (trace st)) as Hp2.
  { rewrite Ed. unfold put_requests in *. rewrite omap_app_silent; [done|].
    eapply Forall_impl; [exact Fd|]. by intros [[]| | | |]. }
  destruct o2 as [[]|e].
  2: { simpl. split_and!; [done | done |]. exists []. simpl.
       split; [lia | by rewrite app_nil_r]. }
  pose proof (save_to_s3_trace w d x city st2) as Hsave. cbv zeta in Hsave.
  pose proof (save_to_s3_returns w d x city st2) as Hres.
  destruct (save_to_s3 w d x city st2) as [o st3]. simpl in Hsave, Hres.
  destruct Hres as (b & ->).
  destruct (archived_document (object_of st2 x) _) as [doc|].
  - assert (attempted (trace st3) = attempted (trace st) ++ [city] /\
            http_calls (trace st3) =
              http_calls (trace st) ++
                (if configured (api_key d) then [weather_request d city]
                 else []) /\
            put_requests (trace st3) =
              put_requests (trace st) ++
                [archive_request d
                   (city, strftime (datetime_now w (trace st2)))])
      as (Ha3 & Hh3 & Hp3).
    { rewrite Hsave. unfold attempted, http_calls, put_requests in *.
      rewrite !omap_app. simpl. rewrite Ha2, Hh2, Hp2.
      by destruct (put_object w _ _ _ _ _); rewrite ?app_nil_r. }
    destruct b; simpl.
    + unfold attempted, http_calls, put_requests in *.
      rewrite !omap_app. simpl. rewrite !app_nil_r.
      split_and!; [done | done |].
      exists [strftime (datetime_now w (trace st2))]. split; [simpl; lia | done].
    + split_and!; [done | done |].
      exists [strftime (datetime_now w (trace st2))]. split; [simpl; lia | done].
  - assert (attempted (trace st3) = attempted (trace st) ++ [city] /\
            http_calls (trace st3) =
              http_calls (trace st) ++
                (if configured (api_key d) then [weather_request d city]
                 else []) /\
            put_requests (trace st3) = put_requests (trace st))
      as (Ha3 & Hh3 & Hp3).
    { rewrite Hsave. unfold attempted, http_calls, put_requests in *.
      rewrite !omap_app. rewrite Ha2, Hh2, Hp2.
      by destruct (truthy (object_of st2 x)); simpl; rewrite ?app_nil_r. }
    destruct b; simpl.
    + unfold attempted, http_calls, put_requests in *.
      rewrite !omap_app. simpl. rewrite !app_nil_r.
      split_and!; [done | done |].
      exists []. split; [simpl; lia | by rewrite app_nil_r].
    + split_and!; [done | done |].
      exists []. split; [simpl; lia | by rewrite app_nil_r].
Qed.

(** The calls of the loop over a list, however it ends. *)
Lemma for_each_calls (w : World) (d : WeatherDashboard.t) (cs : list string)
    (st : state) :
  let after := snd (for_each w d cs st) in
  exists (reached : list string) (stamps : list (string * string)),
    reached `prefix_of` cs /\
    attempted (trace after) = attempted (trace st) ++ reached /\
    http_calls (trace after) =
      http_calls (trace st) ++
        (if configured (api_key d) then map (weather_request d) reached
         else []) /\
    put_requests (trace after) =
      put_requests (trace st) ++ map (archive_request d) stamps /\
    sublist (map fst stamps) reached.
Proof.
  cbv zeta. revert st. induction cs as [|c rest IH]; intros st; simpl.
  - exists [], []. simpl. rewrite !app_nil_r.
    split_and!; try done. by destruct (configured _); rewrite ?app_nil_r.
  - pose proof (visit_calls w d c st) as (Ha & Hh & stamps_c & Hlen & Hp).
    cbv zeta in Ha, Hh, Hp. unfold bind.
    destruct (visit w d c st) as [[[]|e] st1]; simpl in Ha, Hh, Hp.
    + destruct (IH st1) as (reached & stamps & Hpre & Ha' & Hh' & Hp' & Hsub).
      exists (c :: reached), (map (fun ts => (c, ts)) stamps_c ++ stamps).
      split_and!.
      * by apply prefix_cons.
      * by rewrite Ha', Ha, <- app_assoc.
      * rewrite Hh', Hh, <- app_assoc.
        by destruct (configured (api_key d)).
      * rewrite Hp', Hp, <- app_assoc, map_app, map_map. done.
      * rewrite map_app, map_map. simpl.
        destruct stamps_c as [|ts [|ts' more]]; simpl in *; [| | lia].
        -- by apply sublist_cons.
        -- by apply sublist_skip.
    + exists [c], (map (fun ts => (c, ts)) stamps_c). cbn [snd].
      split_and!.
      * apply prefix_cons, prefix_nil.
      * done.
      * rewrite Hh. by destruct (configured (api_key d)).
      * by rewrite Hp, map_map.
      * rewrite map_map. simpl.
        destruct stamps_c as [|ts [|ts' more]]; simpl in *; [| | lia].
        -- apply sublist_nil_l.
        -- done.
Qed.

(** The calls of a whole run: provisioning adds none of them. *)
Lemma run_calls (w : World) (d : WeatherDashboard.t) (cs : list string) :
  let tr := trace (snd (run w d cs initial)) in
  exists stamps : list (string * string),
    attempted tr `prefix_of` cs /\
    http_calls tr =
      (if configured (api_key d) then map (weather_request d) (attempted tr)
       else []) /\
    put_requests tr = map (archive_request d) stamps /\
    sublist (map fst stamps) (attempted tr).
Proof.
  cbv zeta. unfold run, bind.
  pose proof (create_bucket_if_not_exists_returns w d initial) as Hret.
  pose proof (create_bucket_if_not_exists_emits w d initial) as (tr0 & E0 & F0).
  destruct (create_bucket_if_not_exists w d initial) as [[[]|e] st0];
    simpl in Hret; cbn [snd] in E0; [|done].
  assert (attempted (trace st0) = [] /\ http_calls (trace st0) = [] /\
          put_requests (trace st0) = []) as (Ha0 & Hh0 & Hp0).
  { rewrite E0. unfold attempted, http_calls, put_requests.
    rewrite !omap_app_silent; [done | | |];
      (eapply Forall_impl; [exact F0|]); by intros [[]| | | |]. }
  destruct (for_each_calls w d cs st0)
    as (reached & stamps & Hpre & Ha & Hh & Hp & Hsub).
  cbv zeta in Ha, Hh, Hp. rewrite Ha0 in Ha. rewrite Hh0 in Hh.
  rewrite Hp0 in Hp. simpl in Ha, Hh, Hp.
  exists stamps. rewrite Ha, Hh, Hp. done.
Qed.

(** X10.  In every run, over any list of cities and however the run ends, the
    cities reached are a first part of the list, in order, and the requests
    sent to the provider are exactly one for each city reached, in that order,
    with the city as [q], the configured key as [appid] and imperial units;
    without a configured key the run sends none. *)
Theorem requests_follow_the_cities (w : World) (d : WeatherDashboard.t)
    (cs : list string) :
  let tr := trace (snd (run w d cs initial)) in
  attempted tr `prefix_of` cs /\
  http_calls tr =
    if configured (api_key d) then
      map (fun city =>
             ("http://api.openweathermap.org/data/2.5/weather",
              [("q", Some city); ("appid", api_key d);
               ("units", Some "imperial")]))
          (attempted tr)
    else [].
Proof.
  cbv zeta. destruct (run_calls w d cs) as (stamps & Hpre & Hh & _ & _).
  split; [exact Hpre | exact Hh].
Qed.

(** X11.  In every run, over any list of cities and however the run ends, every
    put asked of the store names the configured bucket, declares the content
    type ['application/json'] and uses the key of a city reached, the cities
    of the puts following the order of the list with each city reached
    counted at most once: a run never asks for more puts than cities reached,
    nor for a put under a name that is not built from a city it reached. *)
Theorem puts_follow_the_cities (w : World) (d : WeatherDashboard.t)
    (cs : list string) :
  let tr := trace (snd (run w d cs initial)) in
  exists stamps : list (string * string),
    put_requests tr =
      map (fun city_stamp =>
             (bucket_name d,
              file_name (fst city_stamp) (snd city_stamp),
              "application/json"))
          stamps /\
    sublist (map fst stamps) (attempted tr) /\
    length (put_requests tr) <= length (attempted tr) <= length cs.
Proof.
  cbv zeta. destruct (run_calls w d cs) as (stamps & Hpre & _ & Hp & Hsub).
  exists stamps. split_and!; [exact Hp | exact Hsub | |].
  - rewrite Hp, length_map, <- (length_map fst stamps).
    by apply sublist_length.
  - by apply prefix_length.
Qed.

(** ** One iteration, case by case *)

(** X12.  A reply that parses to a falsy document ([null], an empty object or
    list, zero, an empty string) is treated as a failed fetch although the
    request succeeded: the iteration prints that the fetch failed, displays
    nothing, asks the store for nothing and goes on. *)
Theorem empty_reply_counts_as_failure (w : World) (d : WeatherDashboard.t)
    (city : string) (st : state) (v : json) :
  configured (api_key d) = true ->
  requests_get w (trace (at_fetch city st)) weather_url (weather_params d city) =
    HttpJson v ->
  truthy v = false ->
  fst (visit w d city st) = Return tt /\
  trace (snd (visit w d city st)) =
    trace st ++ [EPrint (MsgFetching city);
                 EHttpGet weather_url (weather_params d city);
                 EPrint (MsgFetchFailed city)] /\
  put_calls (trace (snd (visit w d city st))) = put_calls (trace st).
Proof.
  intros Hkey Hreply Hv.
  assert (exists h,
            fetch_weather w d city (at_fetch city st) =
              (Return (match v with JNull => PyNone | _ => PyRef (length (heap st)) end),
               {| heap := h;
                  trace := trace st ++ [EPrint (MsgFetching city);
                                        EHttpGet weather_url
                                          (weather_params d city)] |}) /\
            object_of {| heap := h; trace := trace st ++
                           [EPrint (MsgFetching city);
                            EHttpGet weather_url (weather_params d city)] |}
              (match v with JNull => PyNone | _ => PyRef (length (heap st)) end)
            = v) as (h & Hfetch & Hobj).
  { rewrite fetch_weather_configured by done. cbv zeta. rewrite Hreply.
    destruct v; eexists; (split; [simpl; rewrite <- app_assoc; reflexivity|]);
      simpl; by rewrite ?heap_get_alloc. }
  rewrite visit_unfold, Hfetch, Hobj, Hv. simpl.
  split_and!; [done | by rewrite <- app_assoc |].
  unfold put_calls. by rewrite !omap_app_silent by (by repeat constructor).
Qed.

Lemma empty_reply_counts_as_failure_witness :
  configured (api_key Sample.dashboard) = true /\
  truthy (JObj []) = false /\
  trace (snd (visit Scenario.world_empty_reply Sample.dashboard "Seattle" initial)) =
    [EPrint (MsgFetching "Seattle");
     EHttpGet weather_url (weather_params Sample.dashboard "Seattle");
     EPrint (MsgFetchFailed "Seattle")].
Proof.
  split; [reflexivity|]. split; [reflexivity|].
  apply (empty_reply_counts_as_failure Scenario.world_empty_reply
           Sample.dashboard "Seattle" initial (JObj []));
    reflexivity.
Defined.

(** X13.  A truthy reply from which one of the displayed values cannot be read
    ends the iteration with the exception of the failing subscript, before
    anything of the reply is printed and before [save_to_s3] is entered: the
    trace holds the announcement and the request and nothing more, and the
    document stays in the heap without a stamp. *)
Theorem unreadable_reply_is_neither_shown_nor_stored (w : World)
    (d : WeatherDashboard.t) (city : string) (st : state) (v : json) (e : exn) :
  configured (api_key d) = true ->
  requests_get w (trace (at_fetch city st)) weather_url (weather_params d city) =
    HttpJson v ->
  truthy v = true ->
  display_fields v = Raise e ->
  visit w d city st =
    (Raise e,
     {| heap := heap st ++ [v];
        trace := trace st ++ [EPrint (MsgFetching city);
                              EHttpGet weather_url (weather_params d city)] |}).
Proof.
  intros Hkey Hreply Hv Hdisp.
  assert (fetch_weather w d city (at_fetch city st) =
            (Return (PyRef (length (heap st))),
             {| heap := heap st ++ [v];
                trace := trace st ++ [EPrint (MsgFetching city);
                                      EHttpGet weather_url
                                        (weather_params d city)] |}))
    as Hfetch.
  { rewrite fetch_weather_configured by done. cbv zeta. rewrite Hreply.
    destruct v; try done; simpl; by rewrite <- app_assoc. }
  rewrite visit_unfold, Hfetch. simpl. rewrite heap_get_alloc, Hv, Hdisp.
  reflexivity.
Qed.

Lemma unreadable_reply_is_neither_shown_nor_stored_witness :
  configured (api_key Sample.dashboard) = true /\
  truthy Sample.no_main = true /\
  display_fields Sample.no_main = Raise KeyError /\
  visit Sample.world_no_main Sample.dashboard "Philadelphia" initial =
    (Raise KeyError,
     {| heap := [Sample.no_main];
        trace := [EPrint (MsgFetching "Philadelphia");
                  EHttpGet weather_url
                    (weather_params Sample.dashboard "Philadelphia")] |}).
Proof.
  split; [reflexivity|]. split; [reflexivity|]. split; [reflexivity|].
  apply (unreadable_reply_is_neither_shown_nor_stored Sample.world_no_main
           Sample.dashboard "Philadelphia" initial Sample.no_main KeyError);
    reflexivity.
Defined.


(** The display lines, up to the first one the stream refuses. *)
Lemma display_all_line_refused (w : World) (written rest : list message)
    (refused : message) (st : state) :
  (forall h m, m ∈ written -> stdout_write w h m = true) ->
  (forall h, stdout_write w h refused = false) ->
  display_all w (written ++ refused :: rest) st =
    (Raise UnicodeEncodeError,
     {| heap := heap st; trace := trace st ++ map EPrint written |}).
Proof.
  revert st. induction written as [|m more IH]; intros st Hw Hr; simpl.
  - unfold bind, display, bind, get_trace, raise. rewrite Hr.
    rewrite app_nil_r. by destruct st.
  - unfold bind, display, bind, get_trace, emit.
    rewrite Hw by apply list_elem_of_here.
    rewrite IH by (try done; intros; apply Hw; by apply list_elem_of_further).
    simpl. by rewrite <- app_assoc.
Qed.



(** X15.  A display line the output stream cannot encode ends the iteration:
    for a reply with the displayed fields, once the stream has written the
    lines before it, [print] raises [UnicodeEncodeError] outside any handler,
    the iteration ends with that exception, the refused line and the lines
    after it are not printed, [save_to_s3] is not entered and no put is
    asked for; the document stays in the heap without a stamp. *)
Theorem refused_display_line_ends_the_iteration (w : World)
    (d : WeatherDashboard.t) (city : string) (st : state)
    (f : string * json) (fields : list (string * json))
    (shown : json * json * json * json)
    (written rest : list message) (refused : message) :
  configured (api_key d) = true ->
  requests_get w (trace (at_fetch city st)) weather_url (weather_params d city) =
    HttpJson (JObj (f :: fields)) ->
  display_fields (JObj (f :: fields)) = Return shown ->
  display_lines shown = written ++ refused :: rest ->
  (forall h m, m ∈ written -> stdout_write w h m = true) ->
  (forall h, stdout_write w h refused = false) ->
  visit w d city st =
    (Raise UnicodeEncodeError,
     {| heap := heap st ++ [JObj (f :: fields)];
        trace := trace st ++ [EPrint (MsgFetching city);
                              EHttpGet weather_url (weather_params d city)] ++
                 map EPrint written |}) /\
  put_calls (trace (snd (visit w d city st))) = put_calls (trace st).
Proof.
  intros Hkey Hreply Hdisp Hlines Hw Hr.
  assert (fetch_weather w d city (at_fetch city st) =
            (Return (PyRef (length (heap st))),
             {| heap := heap st ++ [JObj (f :: fields)];
                trace := trace st ++ [EPrint (MsgFetching city);
                                      EHttpGet weather_url
                                        (weather_params d city)] |}))
    as Hfetch.
  { rewrite fetch_weather_configured by done. cbv zeta. rewrite Hreply.
    simpl. by rewrite <- app_assoc. }
  assert (visit w d city st =
            (Raise UnicodeEncodeError,
             {| heap := heap st ++ [JObj (f :: fields)];
                trace := trace st ++ [EPrint (MsgFetching city);
                                      EHttpGet weather_url
                                        (weather_params d city)] ++
                         map EPrint written |})) as Hvisit.
  { rewrite visit_unfold, Hfetch. simpl. rewrite heap_get_alloc. simpl.
    rewrite Hdisp, Hlines. rewrite display_all_line_refused by done.
    simpl. by rewrite <- app_assoc. }
  split; [exact Hvisit|]. rewrite Hvisit. simpl.
  unfold put_calls. rewrite omap_app_silent; [done|].
  repeat constructor. clear. induction written; by constructor.
Qed.

Lemma refused_display_line_ends_the_iteration_witness :
  configured (api_key Sample.dashboard) = true /\
  (forall h,
     stdout_write Scenario.world_ascii_stream h
       (MsgTemperature (JFloat (S754_finite false 145 (-1)))) = false) /\
  visit Scenario.world_ascii_stream Sample.dashboard "Philadelphia" initial =
    (Raise UnicodeEncodeError,
     {| heap := [Sample.clear_sky];
        trace := [EPrint (MsgFetching "Philadelphia");
                  EHttpGet weather_url
                    (weather_params Sample.dashboard "Philadelphia")] |}).
Proof.
  split; [reflexivity|]. split; [reflexivity|].
  apply (refused_display_line_ends_the_iteration Scenario.world_ascii_stream
           Sample.dashboard "Philadelphia" initial _ _ _ [] _ _
           eq_refl eq_refl eq_refl eq_refl);
    [intros h m Hm; by apply elem_of_nil in Hm | reflexivity].
Defined.
